(** * Device Radar: the discovery and inventory engine

    A shallow embedding of [dev.py] (class [DeviceRadarApp]) and of
    [utils/network_utils.py] ([get_local_subnet]).

    Conventions.
    - Python [str] values are [string]s of ASCII characters: the hardware
      addresses come from scapy as ASCII hex text, the subnet is what the
      user typed in the entry.
    - A call that may raise returns an [outcome]; [try ... except] is
      [catch].
    - The network (ARP sweep, reverse DNS, the UDP socket) and the random
      generator are oracles passed in explicitly.
    - [print] statements (debug log) have no effect on the state and are
      left out. *)

From Stdlib Require Import String Ascii List Bool Arith ZArith Lia.
From Stdlib Require Import Strings.Byte DecimalString.
From Stdlib Require Import Floats.SpecFloat.
Import ListNotations.
Local Open Scope string_scope.

(* ================================================================== *)
(** * Definitions *)
(* ================================================================== *)

(** ** Exceptions *)

(** The exception classes the modelled code can meet. *)
Inductive exn : Type :=
| AddressValueError (msg : string)
| NetmaskValueError (msg : string)
| ValueError (msg : string)
| OSError (msg : string)
| OtherError (msg : string).

Inductive outcome (A : Type) : Type :=
| Returned (a : A)
| Raised (e : exn).
Arguments Returned {A} a.
Arguments Raised {A} e.

(** [try: v = body / except Exception as e: v = handler(e)] *)
Definition catch {A : Type} (body : outcome A) (handler : exn -> A) : A :=
  match body with
  | Returned a => a
  | Raised e => handler e
  end.

Definition bind {A B : Type} (m : outcome A) (k : A -> outcome B) : outcome B :=
  match m with
  | Returned a => k a
  | Raised e => Raised e
  end.

Declare Scope outcome_scope.
Delimit Scope outcome_scope with outcome.
Notation "x <- m ;; k" := (bind m (fun x => k))
  (at level 61, m at next level, right associativity) : outcome_scope.
Notation "' pat <- m ;; k" := (bind m (fun x => match x with pat => k end))
  (at level 61, pat pattern, m at next level, right associativity) : outcome_scope.

Definition returns {A : Type} (o : outcome A) : bool :=
  match o with Returned _ => true | Raised _ => false end.

Definition outcome_map {A B : Type} (f : A -> B) (o : outcome A) : outcome B :=
  match o with Returned a => Returned (f a) | Raised e => Raised e end.

(** ** Python string operations *)

Module PyStr.

(** [c.upper()] on an ASCII character. *)
Definition upper_ascii (c : ascii) : ascii :=
  let n := nat_of_ascii c in
  if ((97 <=? n) && (n <=? 122))%nat then ascii_of_nat (n - 32) else c.

(** [s.upper()] *)
Fixpoint upper (s : string) : string :=
  match s with
  | EmptyString => EmptyString
  | String c s' => String (upper_ascii c) (upper s')
  end.

(** [s.replace(c, '')] for a one-character pattern [c]. *)
Fixpoint remove_char (c : ascii) (s : string) : string :=
  match s with
  | EmptyString => EmptyString
  | String d s' =>
      if Ascii.eqb d c then remove_char c s' else String d (remove_char c s')
  end.

(** [s[:n]] *)
Fixpoint slice_to (n : nat) (s : string) : string :=
  match n, s with
  | S n', String c s' => String c (slice_to n' s')
  | _, _ => EmptyString
  end.

(** [s.startswith(p)] *)
Fixpoint startswith (s p : string) : bool :=
  match p, s with
  | EmptyString, _ => true
  | String a p', String b s' => Ascii.eqb a b && startswith s' p'
  | String _ _, EmptyString => false
  end.

(** The ASCII characters for which [str.isspace()] holds. *)
Definition isspace (c : ascii) : bool :=
  let n := nat_of_ascii c in
  (((9 <=? n) && (n <=? 13)) || ((28 <=? n) && (n <=? 32)))%nat.

Fixpoint lstrip (s : string) : string :=
  match s with
  | String c s' => if isspace c then lstrip s' else s
  | EmptyString => EmptyString
  end.

(** [rstrip]: a character is dropped when it is white space and all that
    follows it has been dropped. *)
Fixpoint rstrip (s : string) : string :=
  match s with
  | EmptyString => EmptyString
  | String c s' =>
      match rstrip s' with
      | EmptyString => if isspace c then EmptyString else String c EmptyString
      | r => String c r
      end
  end.

(** [s.strip()] *)
Definition strip (s : string) : string := rstrip (lstrip s).

(** [s.split(sep)] for a one-character separator: never empty, one more
    field than there are separators. *)
Fixpoint split (sep : ascii) (s : string) : list string :=
  match s with
  | EmptyString => [EmptyString]
  | String c s' =>
      if Ascii.eqb c sep then EmptyString :: split sep s'
      else match split sep s' with
           | f :: fs => String c f :: fs
           | [] => [String c EmptyString]
           end
  end.

(** [sep.join(l)] *)
Fixpoint join (sep : string) (l : list string) : string :=
  match l with
  | [] => EmptyString
  | [a] => a
  | a :: l' => a ++ sep ++ join sep l'
  end.

(** [c in s] *)
Fixpoint contains (c : ascii) (s : string) : bool :=
  match s with
  | EmptyString => false
  | String d s' => Ascii.eqb d c || contains c s'
  end.

Definition is_digit (c : ascii) : bool :=
  let n := nat_of_ascii c in ((48 <=? n) && (n <=? 57))%nat.

Fixpoint all_digits (s : string) : bool :=
  match s with
  | EmptyString => true
  | String c s' => is_digit c && all_digits s'
  end.

(** [s.isascii() and s.isdigit()]: non-empty, decimal digits only. *)
Definition isdigit (s : string) : bool :=
  match s with
  | EmptyString => false
  | _ => all_digits s
  end.

Fixpoint int_acc (acc : Z) (s : string) : Z :=
  match s with
  | EmptyString => acc
  | String c s' => int_acc (10 * acc + (Z.of_nat (nat_of_ascii c) - 48)) s'
  end.

(** [int(s, 10)] on a string of decimal digits. *)
Definition int (s : string) : Z := int_acc 0 s.

(** [str(n)] for a natural number. *)
Definition str_nat (n : nat) : string :=
  NilZero.string_of_uint (Nat.to_uint n).

(** [str(z)] for a non-negative integer. *)
Definition str_Z (z : Z) : string := str_nat (Z.to_nat z).

(** Two lower-case hexadecimal digits, for a character code under 256. *)
Definition hex_digit (n : nat) : ascii :=
  if (n <? 10)%nat then ascii_of_nat (48 + n) else ascii_of_nat (87 + n).

Definition hex2 (n : nat) : string :=
  String (hex_digit (n / 16)) (String (hex_digit (n mod 16)) EmptyString).

(** How [repr] writes one character inside the quotes [q]. *)
Definition repr_char (q c : ascii) : string :=
  let n := nat_of_ascii c in
  if Ascii.eqb c "\"%char then "\\"
  else if Ascii.eqb c q then String "\"%char (String q EmptyString)
  else if (n =? 10)%nat then "\n"
  else if (n =? 13)%nat then "\r"
  else if (n =? 9)%nat then "\t"
  else if ((n <? 32) || (n =? 127))%nat then "\x" ++ hex2 n
  else String c EmptyString.

Fixpoint repr_body (q : ascii) (s : string) : string :=
  match s with
  | EmptyString => EmptyString
  | String c s' => repr_char q c ++ repr_body q s'
  end.

(** [repr(s)], which is what [%r] and [!r] print for a string: single
    quotes, or double quotes when the text has a single quote and no
    double one. *)
Definition repr (s : string) : string :=
  let q := if contains "'"%char s && negb (contains (ascii_of_nat 34) s)
           then ascii_of_nat 34 else "'"%char in
  String q (repr_body q s ++ String q EmptyString).

End PyStr.

(** ** Devices and the OS guess (dev.py, lines 30-35 and 152-165) *)

(** The values of the ['os'] key, which are the keys of [OS_COLORS]. *)
Inductive OSGuess : Type := Windows | Apple | Android | Unknown.

(** Lines 160-164 of [scan_network]:
<<
    vendor = mac.upper().replace(':','')[:6]
    os_guess = 'Unknown'
    if vendor.startswith('5C1F'): os_guess='Apple'
    elif vendor.startswith('FCFB'): os_guess='Windows'
    elif vendor.startswith('A1B2'): os_guess='Android'
>> *)
Definition vendor_of (mac : string) : string :=
  PyStr.slice_to 6 (PyStr.remove_char ":"%char (PyStr.upper mac)).

Definition os_of_vendor (vendor : string) : OSGuess :=
  if PyStr.startswith vendor "5C1F" then Apple
  else if PyStr.startswith vendor "FCFB" then Windows
  else if PyStr.startswith vendor "A1B2" then Android
  else Unknown.

Definition classify (mac : string) : OSGuess := os_of_vendor (vendor_of mac).

(** The classifier as the specification words it: strip the colons,
    uppercase, keep the first six characters, look the result up in a
    table of known prefixes, [Unknown] when no prefix matches. *)
Module ClassifySpec.

Definition prefix_table : list (string * OSGuess) :=
  [ ("5C1F", Apple); ("FCFB", Windows); ("A1B2", Android) ].

Definition normalize (mac : string) : string :=
  PyStr.upper (PyStr.remove_char ":"%char mac).

Fixpoint lookup (table : list (string * OSGuess)) (oui : string) : OSGuess :=
  match table with
  | [] => Unknown
  | (p, g) :: table' => if PyStr.startswith oui p then g else lookup table' oui
  end.

Definition classify_spec (mac : string) : OSGuess :=
  lookup prefix_table (PyStr.slice_to 6 (normalize mac)).

(** The same words once more, with none of the string operations of the
    code: a letter is capitalised by looking it up in the two alphabets,
    the colons are dropped by matching on the colon, the six characters
    are taken and the prefixes tested by the library's [substring] and
    [prefix]. *)
Definition small_letters : string := "abcdefghijklmnopqrstuvwxyz".
Definition capital_letters : string := "ABCDEFGHIJKLMNOPQRSTUVWXYZ".

(** The letter of [big] standing where [c] stands in [small]; [c] itself
    when it is not in [small]. *)
Fixpoint capital_in (small big : string) (c : ascii) : ascii :=
  match small, big with
  | String a small', String b big' =>
      if Ascii.eqb c a then b else capital_in small' big' c
  | _, _ => c
  end.

Definition capital (c : ascii) : ascii :=
  capital_in small_letters capital_letters c.

Fixpoint uppercase (s : string) : string :=
  match s with
  | EmptyString => EmptyString
  | String c s' => String (capital c) (uppercase s')
  end.

Fixpoint without_colons (s : string) : string :=
  match s with
  | EmptyString => EmptyString
  | String ":" s' => without_colons s'
  | String c s' => String c (without_colons s')
  end.

Fixpoint find_prefix (table : list (string * OSGuess)) (oui : string) : OSGuess :=
  match table with
  | [] => Unknown
  | (p, g) :: table' => if String.prefix p oui then g else find_prefix table' oui
  end.

Definition classify_words (mac : string) : OSGuess :=
  find_prefix prefix_table (String.substring 0 6 (uppercase (without_colons mac))).

End ClassifySpec.

(** ** Python's [ipaddress.IPv4Network]

    The standard-library class that [update_subnet] and [get_local_subnet]
    call.  It is not part of the repository; this is its behaviour on a
    string argument, method by method, with an address held as the
    32-bit integer [_ip]. *)
Module IPAddress.

Local Open Scope Z_scope.

Definition max_prefixlen : Z := 32.
Definition ALL_ONES : Z := 2 ^ 32 - 1.

Record Network : Type := mkNetwork {
  network_address : Z;
  netmask : Z;
  prefixlen : Z
}.

(** [_split_optional_netmask] *)
Definition split_optional_netmask (address : string) : outcome (list string) :=
  let addr := PyStr.split "/"%char address in
  if (2 <? length addr)%nat
  then Raised (AddressValueError ("Only one '/' permitted in " ++ PyStr.repr address))
  else Returned addr.

(** [_split_addr_prefix]: the mask is the text after the slash, or the
    integer 32 when there is no slash. *)
Definition split_addr_prefix (address : string)
  : outcome (string * (string + Z)) :=
  (parts <- split_optional_netmask address ;;
   match parts with
   | [a; m] => Returned (a, inl m)
   | a :: _ => Returned (a, inr max_prefixlen)
   | [] => Returned (EmptyString, inr max_prefixlen)
   end)%outcome.

(** [_parse_octet] *)
Definition parse_octet (octet_str : string) : outcome Z :=
  match octet_str with
  | EmptyString => Raised (ValueError "Empty octet not permitted")
  | String c0 _ =>
      if negb (PyStr.isdigit octet_str)
      then Raised (ValueError ("Only decimal digits permitted in " ++ PyStr.repr octet_str))
      else if (3 <? String.length octet_str)%nat
      then Raised (ValueError ("At most 3 characters permitted in " ++ PyStr.repr octet_str))
      else if negb (String.eqb octet_str "0") && Ascii.eqb c0 "0"%char
      then Raised (ValueError ("Leading zeros are not permitted in " ++ PyStr.repr octet_str))
      else
        let octet_int := PyStr.int octet_str in
        if 255 <? octet_int
        then Raised (ValueError ("Octet " ++ PyStr.str_Z octet_int ++ " (> 255) not permitted"))
        else Returned octet_int
  end.

Fixpoint parse_octets (octets : list string) : outcome (list Z) :=
  match octets with
  | [] => Returned []
  | o :: rest =>
      (b <- parse_octet o ;;
       bs <- parse_octets rest ;;
       Returned (b :: bs))%outcome
  end.

(** [int.from_bytes(bs, 'big')] *)
Definition from_bytes_big (bs : list Z) : Z :=
  fold_left (fun acc b => acc * 256 + b) bs 0.

(** [n.to_bytes(4, 'big')] *)
Definition to_bytes4 (n : Z) : list Z :=
  [ Z.land (Z.shiftr n 24) 255; Z.land (Z.shiftr n 16) 255;
    Z.land (Z.shiftr n 8) 255; Z.land n 255 ].

(** [_ip_int_from_string] *)
Definition ip_int_from_string (ip_str : string) : outcome Z :=
  match ip_str with
  | EmptyString => Raised (AddressValueError "Address cannot be empty")
  | _ =>
      let octets := PyStr.split "."%char ip_str in
      if negb (length octets =? 4)%nat
      then Raised (AddressValueError ("Expected 4 octets in " ++ PyStr.repr ip_str))
      else match parse_octets octets with
           | Returned bs => Returned (from_bytes_big bs)
           | Raised (ValueError m) =>
               Raised (AddressValueError (m ++ " in " ++ PyStr.repr ip_str))
           | Raised e => Raised e
           end
  end.

(** [IPv4Address(addr_str)] *)
Definition IPv4Address (addr_str : string) : outcome Z :=
  if PyStr.contains "/"%char addr_str
  then Raised (AddressValueError ("Unexpected '/' in " ++ PyStr.repr addr_str))
  else ip_int_from_string addr_str.

(** [_report_invalid_netmask]; [netmask_repr] is the argument as [%r]
    prints it. *)
Definition report_invalid_netmask {A : Type} (netmask_repr : string) : outcome A :=
  Raised (NetmaskValueError (netmask_repr ++ " is not a valid netmask")).

(** [_prefix_from_prefix_string] *)
Definition prefix_from_prefix_string (prefixlen_str : string) : outcome Z :=
  if negb (PyStr.isdigit prefixlen_str)
  then report_invalid_netmask (PyStr.repr prefixlen_str)
  else
    let p := PyStr.int prefixlen_str in
    if negb ((0 <=? p) && (p <=? max_prefixlen))
    then report_invalid_netmask (PyStr.repr prefixlen_str)
    else Returned p.

(** [int.bit_length] *)
Definition bit_length (z : Z) : Z :=
  if z =? 0 then 0 else Z.log2 (Z.abs z) + 1.

(** [_count_righthand_zero_bits] *)
Definition count_righthand_zero_bits (number bits : Z) : Z :=
  if number =? 0 then bits
  else Z.min bits (bit_length (Z.land (Z.lnot number) (number - 1))).

(** [_prefix_from_ip_int]; its error is caught by [_prefix_from_ip_string]
    and its text is never shown. *)
Definition prefix_from_ip_int (ip_int : Z) : outcome Z :=
  let trailing_zeroes := count_righthand_zero_bits ip_int max_prefixlen in
  let p := max_prefixlen - trailing_zeroes in
  let leading_ones := Z.shiftr ip_int trailing_zeroes in
  let all_ones := Z.shiftl 1 p - 1 in
  if negb (leading_ones =? all_ones)
  then Raised (ValueError "Netmask pattern mixes zeroes & ones")
  else Returned p.

(** [_prefix_from_ip_string]: a dotted netmask, else a dotted hostmask. *)
Definition prefix_from_ip_string (ip_str : string) : outcome Z :=
  match ip_int_from_string ip_str with
  | Raised _ => report_invalid_netmask (PyStr.repr ip_str)
  | Returned ip_int =>
      match prefix_from_ip_int ip_int with
      | Returned p => Returned p
      | Raised _ =>
          match prefix_from_ip_int (Z.lxor ip_int ALL_ONES) with
          | Returned p => Returned p
          | Raised _ => report_invalid_netmask (PyStr.repr ip_str)
          end
      end
  end.

(** [_ip_int_from_prefix] *)
Definition ip_int_from_prefix (p : Z) : Z :=
  Z.lxor ALL_ONES (Z.shiftr ALL_ONES p).

(** [_make_netmask] *)
Definition make_netmask (arg : string + Z) : outcome (Z * Z) :=
  (p <- match arg with
        | inr n =>
            if negb ((0 <=? n) && (n <=? max_prefixlen))
            then report_invalid_netmask (PyStr.str_Z n)
            else Returned n
        | inl s =>
            match prefix_from_prefix_string s with
            | Returned p => Returned p
            | Raised (NetmaskValueError _) => prefix_from_ip_string s
            | Raised e => Raised e
            end
        end ;;
   Returned (ip_int_from_prefix p, p))%outcome.

(** [str(address)] *)
Definition str_address (ip_int : Z) : string :=
  PyStr.join "." (map PyStr.str_Z (to_bytes4 ip_int)).

(** [str(network)] *)
Definition str (net : Network) : string :=
  str_address (network_address net) ++ "/" ++ PyStr.str_Z (prefixlen net).

(** [IPv4Network(address, strict)] *)
Definition IPv4Network (address : string) (strict : bool) : outcome Network :=
  ('(addr, mask) <- split_addr_prefix address ;;
   packed <- IPv4Address addr ;;
   '(nm, p) <- make_netmask mask ;;
   if negb (Z.land packed nm =? packed)
   then if strict
        then Raised (ValueError (str (mkNetwork packed nm p) ++ " has host bits set"))
        else Returned (mkNetwork (Z.land packed nm) nm p)
   else Returned (mkNetwork packed nm p))%outcome.

End IPAddress.

(** ** utils/network_utils.py *)

(** A [struct in_addr]: the four bytes of an IPv4 address, first byte
    first. *)
Definition in_addr : Type := (byte * byte * byte * byte)%type.

(** The dotted text the socket layer renders an address as, which is
    what [getsockname()[0]] holds. *)
Definition inet_ntoa (a : in_addr) : string :=
  let '(b1, b2, b3, b4) := a in
  PyStr.join "." (map (fun b => PyStr.str_nat (Byte.to_nat b)) [b1; b2; b3; b4]).

(** "CIDR syntax", as the specification has it for [validate]: a
    dotted-quad IPv4 address, alone or followed by a slash and a mask, the
    mask being a prefix length from 0 to 32 written in decimal or a dotted
    quad.  Written as what such texts look like, not as a parser. *)
Module CIDRSyntax.

Fixpoint zeros (k : nat) : string :=
  match k with
  | O => EmptyString
  | S k' => String "0" (zeros k')
  end.

(** Four numbers from 0 to 255 in decimal, without leading zeros,
    separated by dots. *)
Definition dotted_quad (s : string) : Prop :=
  exists b1 b2 b3 b4 : byte, s = inet_ntoa (b1, b2, b3, b4).

(** A number from 0 to 32 in decimal, leading zeros allowed. *)
Definition prefix_length (s : string) : Prop :=
  exists k n, n <= 32 /\ s = (zeros k ++ PyStr.str_nat n)%string.

Definition mask (s : string) : Prop := prefix_length s \/ dotted_quad s.


End CIDRSyntax.

(** What the operating system answers to the three socket calls of
    [get_local_subnet]. *)
Record SocketEnv : Type := mkSocketEnv {
  socket_socket : outcome unit;      (* socket.socket(AF_INET, SOCK_DGRAM) *)
  connect : outcome unit;            (* s.connect(("8.8.8.8", 80)) *)
  getsockname : outcome in_addr      (* s.getsockname()[0] *)
}.

(** [get_local_subnet]: the socket is created before the [try]; [connect]
    and [getsockname] are inside it, under a bare [except]; the network is
    built after the [finally]. *)
Definition get_local_subnet (env : SocketEnv) : outcome string :=
  (_ <- socket_socket env ;;
   let local_ip :=
     catch (_ <- connect env ;;
            a <- getsockname env ;;
            Returned (inet_ntoa a))
           (fun _ => "127.0.0.1") in
   net <- IPAddress.IPv4Network (local_ip ++ "/24") false ;;
   Returned (IPAddress.str net))%outcome.

(** ** dev.py: the application state *)

(** A canvas position; the coordinates are Python floats. *)
Definition Point : Type := (spec_float * spec_float)%type.

(** One entry of [self.devices]: the dict with keys ['ip'], ['mac'],
    ['host'], ['os'], to which the update loop adds ['x'] and ['y']. *)
Record Device : Type := mkDevice {
  ip : string;
  mac : string;
  host : string;
  os : OSGuess;
  xy : option Point
}.

(** A received ARP reply [r]: [r.psrc] and [r.hwsrc]. *)
Record Reply : Type := mkReply {
  psrc : string;
  hwsrc : string
}.

(** A modal dialog shown to the user. *)
Inductive dialog : Type :=
| showerror (title message : string)
| showinfo (title message : string).

(** The module global [DEFAULT_SUBNET] and the attributes of
    [DeviceRadarApp] the engine reads or writes. *)
Record State : Type := mkState {
  DEFAULT_SUBNET : string;
  subnet_var : string;               (* text of the subnet entry *)
  info_label : string;
  troll_btn_enabled : bool;
  devices : list Device;
  tooltips : list string;            (* texts of the tooltips, by canvas item *)
  running : bool;
  destroyed : bool;                  (* self.destroy() has been called *)
  dialogs : list dialog              (* message boxes shown, oldest first *)
}.

Definition set_DEFAULT_SUBNET (v : string) (st : State) : State :=
  mkState v (subnet_var st) (info_label st) (troll_btn_enabled st) (devices st)
          (tooltips st) (running st) (destroyed st) (dialogs st).
Definition set_info_label (v : string) (st : State) : State :=
  mkState (DEFAULT_SUBNET st) (subnet_var st) v (troll_btn_enabled st) (devices st)
          (tooltips st) (running st) (destroyed st) (dialogs st).
Definition set_troll_btn_enabled (v : bool) (st : State) : State :=
  mkState (DEFAULT_SUBNET st) (subnet_var st) (info_label st) v (devices st)
          (tooltips st) (running st) (destroyed st) (dialogs st).
Definition set_devices (v : list Device) (st : State) : State :=
  mkState (DEFAULT_SUBNET st) (subnet_var st) (info_label st) (troll_btn_enabled st) v
          (tooltips st) (running st) (destroyed st) (dialogs st).
Definition set_tooltips (v : list string) (st : State) : State :=
  mkState (DEFAULT_SUBNET st) (subnet_var st) (info_label st) (troll_btn_enabled st)
          (devices st) v (running st) (destroyed st) (dialogs st).
Definition set_running (v : bool) (st : State) : State :=
  mkState (DEFAULT_SUBNET st) (subnet_var st) (info_label st) (troll_btn_enabled st)
          (devices st) (tooltips st) v (destroyed st) (dialogs st).
Definition set_destroyed (v : bool) (st : State) : State :=
  mkState (DEFAULT_SUBNET st) (subnet_var st) (info_label st) (troll_btn_enabled st)
          (devices st) (tooltips st) (running st) v (dialogs st).
Definition set_dialogs (v : list dialog) (st : State) : State :=
  mkState (DEFAULT_SUBNET st) (subnet_var st) (info_label st) (troll_btn_enabled st)
          (devices st) (tooltips st) (running st) (destroyed st) v.

(** [str(e)] *)
Definition exn_str (e : exn) : string :=
  match e with
  | AddressValueError m | NetmaskValueError m | ValueError m
  | OSError m | OtherError m => m
  end.

(** ** [update_subnet] (lines 118-127) *)

Definition update_subnet (st : State) : State :=
  let val := PyStr.strip (subnet_var st) in
  match IPAddress.IPv4Network val false with
  | Returned _ =>
      set_info_label "Subnet set" (set_DEFAULT_SUBNET val st)
  | Raised e =>
      set_dialogs (dialogs st ++ [showerror "Error" ("Invalid subnet: " ++ exn_str e)]) st
  end.

(** ** [on_close] (lines 133-135) *)

Definition on_close (st : State) : State :=
  set_destroyed true (set_running false st).

(** ** [scan_network] (lines 142-179) *)

(** What the network and the random generator answer during one call. *)
Record ScanEnv : Type := mkScanEnv {
  arping : string -> outcome (list Reply);   (* the answered part of arping(subnet, timeout=3) *)
  gethostbyaddr : string -> outcome string;  (* socket.gethostbyaddr(ip)[0] *)
  uniform_xy : nat -> Point                  (* the (x, y) drawn for the k-th device *)
}.

(** Lines 145-149. *)
Definition probe (env : ScanEnv) (subnet : string) : list Reply :=
  catch (arping env subnet) (fun _ => []).

(** The body of the loop of lines 153-165, for one reply. *)
Definition assemble (env : ScanEnv) (r : Reply) : Device :=
  let ip := psrc r in
  let mac := hwsrc r in
  let host := catch (gethostbyaddr env ip) (fun _ => ip) in
  mkDevice ip mac host (classify mac) None.

(** [d.update({'x':x, 'y':y})] *)
Definition place (p : Point) (d : Device) : Device :=
  mkDevice (ip d) (mac d) (host d) (os d) (Some p).

(** The loop of lines 171-177, at its [k]-th iteration. *)
Fixpoint append_found (env : ScanEnv) (k : nat) (found : list Device)
  (devs : list Device) : list Device :=
  match found with
  | [] => devs
  | d :: rest => append_found env (S k) rest (devs ++ [place (uniform_xy env k) d])
  end.

Definition scan_network (env : ScanEnv) (st : State) : State :=
  let subnet := subnet_var st in
  let ans := probe env subnet in
  let found := map (assemble env) ans in
  let st := set_devices [] st in
  let st := set_tooltips [] st in
  let st := set_troll_btn_enabled false st in
  let st := set_devices (append_found env 0 found (devices st)) st in
  set_info_label (PyStr.str_nat (length (devices st)) ++ " devices found") st.

(** The devices [append_found] adds, in closed form: the [j]-th device of
    [found] gets the coordinates drawn at iteration [k + j]. *)
Fixpoint placed (env : ScanEnv) (k : nat) (found : list Device) : list Device :=
  match found with
  | [] => []
  | d :: rest => place (uniform_xy env k) d :: placed env (S k) rest
  end.

(** ** The scanner thread, one atomic action at a time

    [scan_network] runs on the thread started at line 115 while the main
    thread redraws.  The interpreter switches threads between bytecodes;
    [list.clear] and [list.append] are single calls.  The program points
    below are the ones between which [self.devices] changes. *)
Inductive scan_pc : Type :=
| pc_arping                                   (* lines 143-150 *)
| pc_assemble (ans : list Reply)              (* lines 152-165 *)
| pc_clear (found : list Device)              (* lines 168-170 *)
| pc_append (found : list Device) (k : nat)   (* lines 171-177, iterator at index k *)
| pc_label                                    (* line 179 *)
| pc_return.

Definition scan_step (env : ScanEnv) (pc : scan_pc) (st : State)
  : scan_pc * State :=
  match pc with
  | pc_arping => (pc_assemble (probe env (subnet_var st)), st)
  | pc_assemble ans => (pc_clear (map (assemble env) ans), st)
  | pc_clear found =>
      (pc_append found 0,
       set_troll_btn_enabled false (set_tooltips [] (set_devices [] st)))
  | pc_append found k =>
      match nth_error found k with
      | Some d =>
          (pc_append found (S k),
           set_devices (devices st ++ [place (uniform_xy env k) d]) st)
      | None => (pc_label, st)
      end
  | pc_label =>
      (pc_return,
       set_info_label (PyStr.str_nat (length (devices st)) ++ " devices found") st)
  | pc_return => (pc_return, st)
  end.

(** ** The reader: the loop of [draw_radar] (lines 198-210)

    [for d in self.devices] holds an index into the shared list and
    fetches one element per iteration; [drawn] is the sequence of devices
    this pass has drawn so far. *)
Inductive draw_pc : Type :=
| dr_idle
| dr_iter (i : nat) (drawn : list Device)
| dr_done (drawn : list Device).

Definition os_name (g : OSGuess) : string :=
  match g with
  | Windows => "Windows" | Apple => "Apple"
  | Android => "Android" | Unknown => "Unknown"
  end.

Definition newline : string := String (ascii_of_nat 10) EmptyString.

(** Line 206. *)
Definition tip_text (d : Device) : string :=
  host d ++ newline ++ ip d ++ newline ++ mac d ++ newline ++ "OS: " ++ os_name (os d).

Definition draw_step (pc : draw_pc) (st : State) : draw_pc * State :=
  match pc with
  | dr_idle | dr_done _ => (dr_iter 0 [], st)
  | dr_iter i drawn =>
      match nth_error (devices st) i with
      | Some d =>
          (dr_iter (S i) (drawn ++ [d]),
           set_tooltips (tooltips st ++ [tip_text d]) st)
      | None => (dr_done drawn, st)
      end
  end.

(** One call of [scan_network] on the scanner thread, interleaved with
    the redraws of the main thread. *)
Module Cycle.

Inductive thread : Type := scanner | drawer.

Record World : Type := mkWorld {
  shared : State;
  scan : scan_pc;
  draw : draw_pc
}.

Definition step (env : ScanEnv) (w : World) (t : thread) : World :=
  match t with
  | scanner =>
      let '(pc, st) := scan_step env (scan w) (shared w) in
      mkWorld st pc (draw w)
  | drawer =>
      let '(pc, st) := draw_step (draw w) (shared w) in
      mkWorld st (scan w) pc
  end.

(** The world after the threads have run in the order [sched]. *)
Definition run (env : ScanEnv) (sched : list thread) (w : World) : World :=
  fold_left (step env) sched w.

(** A scan is about to start; the main thread is between redraws. *)
Definition start (st : State) : World := mkWorld st pc_arping dr_idle.

(** The sequence of devices a completed pass of the reader obtained. *)
Definition obtained (w : World) : option (list Device) :=
  match draw w with
  | dr_done drawn => Some drawn
  | _ => None
  end.

End Cycle.

(** ** [scan_loop] (lines 137-140) against [on_close]

    The scanner thread runs [scan_loop]; the main thread may run
    [on_close] between any two of its steps.  What Tk does with a call on
    a destroyed widget, and the end of the process, which takes the
    daemon thread with it, are left out: the scanner is allowed to go on
    stepping after [on_close]. *)
Module Loop.

Inductive loop_pc : Type :=
| lp_test                  (* while self.running *)
| lp_scan (pc : scan_pc)   (* inside self.scan_network() *)
| lp_sleep                 (* time.sleep(SCAN_INTERVAL) *)
| lp_exit.                 (* the loop is left, the thread ends *)

(** [scans] counts the calls of [scan_network] the loop has begun;
    [envs n] is what the network answers during the [n]-th of them. *)
Record World : Type := mkWorld {
  shared : State;
  loop : loop_pc;
  scans : nat
}.

Inductive event : Type :=
| ev_scanner      (* the scanner thread takes one step *)
| ev_on_close.    (* the main thread runs on_close *)

Definition loop_step (envs : nat -> ScanEnv) (w : World) : World :=
  match loop w with
  | lp_test =>
      if running (shared w)
      then mkWorld (shared w) (lp_scan pc_arping) (S (scans w))
      else mkWorld (shared w) lp_exit (scans w)
  | lp_scan pc_return => mkWorld (shared w) lp_sleep (scans w)
  | lp_scan pc =>
      let '(pc', st) := scan_step (envs (scans w)) pc (shared w) in
      mkWorld st (lp_scan pc') (scans w)
  | lp_sleep => mkWorld (shared w) lp_test (scans w)
  | lp_exit => w
  end.

Definition step (envs : nat -> ScanEnv) (w : World) (e : event) : World :=
  match e with
  | ev_scanner => loop_step envs w
  | ev_on_close => mkWorld (on_close (shared w)) (loop w) (scans w)
  end.

Definition run (envs : nat -> ScanEnv) (evs : list event) (w : World) : World :=
  fold_left (step envs) evs w.

(** After [__init__]: the flag is set and the thread is at the loop test. *)
Definition start (st : State) : World :=
  mkWorld (set_running true st) lp_test 0.

(** [on_close] has returned: the flag is cleared and the window is gone. *)
Definition stopped (w : World) : bool :=
  negb (running (shared w)) && destroyed (shared w).

(** A scan is in flight and its devices are not all in [self.devices] yet. *)
Definition unpublished (w : World) : bool :=
  match loop w with
  | lp_scan pc_arping | lp_scan (pc_assemble _) | lp_scan (pc_clear _) => true
  | lp_scan (pc_append found k) => (k <? length found)%nat
  | _ => false
  end.

End Loop.

(** ** Predicates of the specification *)

Definition is_upper_hex (c : ascii) : bool :=
  let n := nat_of_ascii c in
  (((48 <=? n) && (n <=? 57)) || ((65 <=? n) && (n <=? 70)))%nat.

(** Canonical form of a hardware address: six pairs of uppercase
    hexadecimal digits separated by colons. *)
Definition canonical_mac (s : string) : bool :=
  let groups := PyStr.split ":"%char s in
  (length groups =? 6)%nat &&
  forallb (fun g =>
             match g with
             | String a (String b EmptyString) => is_upper_hex a && is_upper_hex b
             | _ => false
             end) groups.

(** No two devices of the list have the same ['ip']. *)
Fixpoint unique_ips (l : list Device) : bool :=
  match l with
  | [] => true
  | d :: rest => negb (existsb (fun e => String.eqb (ip e) (ip d)) rest) && unique_ips rest
  end.

(** The devices of [l] whose ['ip'] is [a]. *)
Definition with_ip (a : string) (l : list Device) : list Device :=
  filter (fun d => String.eqb (ip d) a) l.

(** ** What holds of the shared table during one scan cycle

    [st0] is the state in which the cycle starts and [env] what the
    network answers during it. *)
Section CycleInvariant.

Variable env : ScanEnv.
Variable st0 : State.

(** The table before the cycle, and the table the cycle is building. *)
Definition old_table : list Device := devices st0.
Definition new_table : list Device := devices (scan_network env st0).

(** The table as a function of where the scanner stands. *)
Definition table_inv (pc : scan_pc) (devs : list Device) : Prop :=
  let ans0 := probe env (subnet_var st0) in
  let found0 := map (assemble env) ans0 in
  match pc with
  | pc_arping => devs = old_table
  | pc_assemble ans => ans = ans0 /\ devs = old_table
  | pc_clear found => found = found0 /\ devs = old_table
  | pc_append found k =>
      found = found0 /\ k <= length found0 /\ devs = firstn k new_table
  | pc_label | pc_return => devs = new_table
  end.

(** Every device drawn at position [j] is the [j]-th device of the old
    table or the [j]-th device of the new one. *)
Definition drawn_from_either (drawn : list Device) : Prop :=
  forall j d,
    nth_error drawn j = Some d ->
    nth_error old_table j = Some d \/ nth_error new_table j = Some d.

Definition draw_inv (pc : draw_pc) : Prop :=
  match pc with
  | dr_idle => True
  | dr_iter i drawn => length drawn = i /\ drawn_from_either drawn
  | dr_done drawn => drawn_from_either drawn
  end.

Definition cycle_inv (w : Cycle.World) : Prop :=
  subnet_var (Cycle.shared w) = subnet_var st0
  /\ table_inv (Cycle.scan w) (devices (Cycle.shared w))
  /\ draw_inv (Cycle.draw w).

End CycleInvariant.

(** ** Example environments and states *)

Definition no_point : Point := (S754_zero false, S754_zero false).

(** A sweep that fails for lack of privilege. *)
Definition env_no_permission : ScanEnv :=
  mkScanEnv (fun _ => Raised (OSError "Operation not permitted"))
            (fun _ => Raised (OSError "Unknown host"))
            (fun _ => no_point).

Definition stale_device : Device :=
  mkDevice "10.0.0.9" "AA:BB:CC:00:11:22" "printer" Unknown (Some no_point).

(** A table that still holds a device of an earlier cycle. *)
Definition st_stale : State :=
  mkState "10.0.0.0/24" "10.0.0.0/24" "1 devices found" false
          [stale_device] [] true false [].

(** One reply, with the address in lower case as scapy prints it. *)
Definition env_lower_case : ScanEnv :=
  mkScanEnv (fun _ => Returned [mkReply "10.0.0.5" "5c:1f:00:11:22:33"])
            (fun _ => Raised (OSError "Unknown host"))
            (fun _ => no_point).

(** Two replies for one IP. *)
Definition env_duplicate_ip : ScanEnv :=
  mkScanEnv (fun _ => Returned [ mkReply "10.0.0.5" "5c:1f:00:11:22:33";
                                 mkReply "10.0.0.5" "fc:fb:aa:bb:cc:dd" ])
            (fun _ => Raised (OSError "Unknown host"))
            (fun _ => no_point).

(** The state after the user typed [text] into the subnet entry. *)
Definition st_typed (text : string) : State :=
  mkState "10.0.0.0/24" text "1 devices found" false [stale_device] [] true false [].

(** The text [update_subnet] hands to [IPv4Network] is accepted. *)
Definition valid_cidr (val : string) : bool :=
  returns (IPAddress.IPv4Network val false).

(** What the parser needs to know about one field of a dotted address. *)
Definition octet_text (s : string) (z : Z) : Prop :=
  PyStr.contains "/"%char s = false
  /\ PyStr.contains "."%char s = false
  /\ IPAddress.parse_octet s = Returned z
  /\ (0 <= z < 256)%Z.

(** No route to the outside: [connect] raises. *)
Definition env_no_route : SocketEnv :=
  mkSocketEnv (Returned tt)
              (Raised (OSError "Network is unreachable"))
              (Raised (OSError "Transport endpoint is not connected")).

(** No socket to be had: [socket.socket] itself raises. *)
Definition env_no_socket : SocketEnv :=
  mkSocketEnv (Raised (OSError "Too many open files"))
              (Raised (OSError "Bad file descriptor"))
              (Raised (OSError "Bad file descriptor")).

(** Two hosts answer; the table holds two other devices from the cycle
    before. *)
Definition env_two_hosts : ScanEnv :=
  mkScanEnv (fun _ => Returned [ mkReply "10.0.0.5" "5c:1f:00:11:22:33";
                                 mkReply "10.0.0.6" "fc:fb:aa:bb:cc:dd" ])
            (fun _ => Raised (OSError "Unknown host"))
            (fun _ => no_point).

Definition old_a : Device :=
  mkDevice "10.0.0.1" "a1:b2:00:00:00:01" "router" Android (Some no_point).
Definition old_b : Device :=
  mkDevice "10.0.0.2" "00:00:00:00:00:02" "nas" Unknown (Some no_point).
Definition new_c : Device :=
  mkDevice "10.0.0.5" "5c:1f:00:11:22:33" "10.0.0.5" Apple (Some no_point).
Definition new_d : Device :=
  mkDevice "10.0.0.6" "fc:fb:aa:bb:cc:dd" "10.0.0.6" Windows (Some no_point).

Definition st_two_old : State :=
  mkState "10.0.0.0/24" "10.0.0.0/24" "2 devices found" false
          [old_a; old_b] [] true false [].

(** ** dev.py: the tooltip helper (lines 41-60) *)
Module ToolTip.

(** A [tk.Toplevel] made by [show]: its position and the text of its
    label. *)
Record Toplevel : Type := mkToplevel {
  geometry : Z * Z;
  label : string
}.

(** The attributes [text] and [tip] of a [ToolTip], and [alive], the
    number of windows it has made and not destroyed. *)
Record t : Type := mk {
  text : string;
  tip : option Toplevel;
  alive : nat
}.

(** [ToolTip(widget, text)] *)
Definition init (text : string) : t := mk text None 0.

(** [show(x, y)]: nothing when a window is up or the text is empty. *)
Definition show (x y : Z) (tt : t) : t :=
  match tip tt, text tt with
  | Some _, _ => tt
  | None, EmptyString => tt
  | None, _ => mk (text tt) (Some (mkToplevel (x, y) (text tt))) (S (alive tt))
  end.

(** [hide()]: destroys the window that is up, if any. *)
Definition hide (tt : t) : t :=
  match tip tt with
  | Some _ => mk (text tt) None (pred (alive tt))
  | None => tt
  end.

(** What the pointer does to the canvas item the tooltip is bound to. *)
Inductive event : Type :=
| Enter (x_root y_root : Z)    (* bound to show(e.x_root+10, e.y_root+10) *)
| Leave.                       (* bound to hide() *)

Definition handle (tt : t) (e : event) : t :=
  match e with
  | Enter x y => show (x + 10) (y + 10) tt
  | Leave => hide tt
  end.

Definition run (evs : list event) (tt : t) : t := fold_left handle evs tt.

End ToolTip.

(** ** dev.py: the rest of [DeviceRadarApp] *)

Definition TROLL_PORTS : list Z := [1900; 5353; 5555; 137]%Z.

Definition OS_COLORS : list (string * string) :=
  [ ("Windows", "blue"); ("Apple", "gray"); ("Android", "green"); ("Unknown", "white") ].

(** [d.get(key, default)] *)
Fixpoint dict_get (d : list (string * string)) (key default : string) : string :=
  match d with
  | [] => default
  | (k, v) :: d' => if String.eqb k key then v else dict_get d' key default
  end.

(** [range(start, stop, step)] as a list; empty for a zero step, which
    Python refuses. *)
Definition py_range (start stop step : Z) : list Z :=
  let n :=
    if (0 <? step)%Z then ((stop - start + step - 1) / step)%Z
    else if (step <? 0)%Z then ((start - stop - step - 1) / (- step))%Z
    else 0%Z in
  map (fun i => (start + Z.of_nat i * step)%Z) (seq 0 (Z.to_nat n)).

(** What [draw_radar] puts on the canvas.  The corner coordinates of an
    item are arithmetic on [self.center] and on the data kept here. *)
Inductive item : Type :=
| circle (r : Z)                   (* create_oval around the center, outline '#444' *)
| scan_line (angle : Z)            (* create_line from the center, at [angle] degrees *)
| dot (d : Device) (fill : string). (* create_oval around (d['x'], d['y']) *)

(** A datagram handed to [sock.sendto]: payload, address, port. *)
Definition datagram : Type := (string * string * Z)%type.

(** The attributes of [DeviceRadarApp] beside those of [State].  Text that
    is not ASCII is held as its UTF-8 bytes. *)
Record Ui : Type := mkUi {
  core : State;
  selected : option Device;
  msg_entry : string;
  fullscreen : bool;
  radius : Z;
  scan_angle : Z;
  canvas : list item;
  datagrams : list datagram          (* what has been handed to sendto, oldest first *)
}.

Definition set_core (v : State) (ui : Ui) : Ui :=
  mkUi v (selected ui) (msg_entry ui) (fullscreen ui) (radius ui) (scan_angle ui)
       (canvas ui) (datagrams ui).
Definition set_selected (v : option Device) (ui : Ui) : Ui :=
  mkUi (core ui) v (msg_entry ui) (fullscreen ui) (radius ui) (scan_angle ui)
       (canvas ui) (datagrams ui).
Definition set_fullscreen (v : bool) (ui : Ui) : Ui :=
  mkUi (core ui) (selected ui) (msg_entry ui) v (radius ui) (scan_angle ui)
       (canvas ui) (datagrams ui).
Definition set_scan_angle (v : Z) (ui : Ui) : Ui :=
  mkUi (core ui) (selected ui) (msg_entry ui) (fullscreen ui) (radius ui) v
       (canvas ui) (datagrams ui).
Definition set_canvas (v : list item) (ui : Ui) : Ui :=
  mkUi (core ui) (selected ui) (msg_entry ui) (fullscreen ui) (radius ui) (scan_angle ui)
       v (datagrams ui).
Definition set_datagrams (v : list datagram) (ui : Ui) : Ui :=
  mkUi (core ui) (selected ui) (msg_entry ui) (fullscreen ui) (radius ui) (scan_angle ui)
       (canvas ui) v.

(** The methods of [State] seen from the whole application. *)
Definition ui_scan_network (env : ScanEnv) (ui : Ui) : Ui :=
  set_core (scan_network env (core ui)) ui.
Definition ui_update_subnet (ui : Ui) : Ui := set_core (update_subnet (core ui)) ui.
Definition ui_on_close (ui : Ui) : Ui := set_core (on_close (core ui)) ui.

(** [toggle_fullscreen] (lines 129-131) *)
Definition toggle_fullscreen (ui : Ui) : Ui :=
  set_fullscreen (negb (fullscreen ui)) ui.

(** [draw_radar] (lines 181-210), run without interruption: the canvas is
    emptied, then come the circles, the scan line and one dot per device,
    each dot with a new tooltip. *)
Definition dot_of (d : Device) : item :=
  dot d (dict_get OS_COLORS (os_name (os d)) "white").

Definition draw_radar (ui : Ui) : Ui :=
  let circles := map circle (py_range 100 (radius ui + 1) 100) in
  let dots := map dot_of (devices (core ui)) in
  let tips := map tip_text (devices (core ui)) in
  set_canvas (circles ++ [scan_line (scan_angle ui)] ++ dots)
    (set_core (set_tooltips (tooltips (core ui) ++ tips) (core ui)) ui).

(** [animate] (lines 212-215); [self.after(50, self.animate)] makes the
    next call. *)
Definition animate (ui : Ui) : Ui :=
  draw_radar (set_scan_angle ((scan_angle ui + 3) mod 360)%Z ui).

(** [on_select] (lines 217-221) *)
Definition on_select (dev : Device) (ui : Ui) : Ui :=
  let st := core ui in
  let st := set_info_label ("Selected: " ++ host dev ++ " (" ++ ip dev ++ ")") st in
  let st := set_troll_btn_enabled true st in
  set_core st (set_selected (Some dev) ui).

(** What the operating system answers to [troll_selected]. *)
Record TrollEnv : Type := mkTrollEnv {
  udp_socket : outcome unit;                      (* socket.socket(AF_INET, SOCK_DGRAM) *)
  sendto : string -> string -> Z -> outcome unit  (* sock.sendto(msg, (ip, p)) *)
}.

(** Lines 231-236: one attempt per port, a failure noted and passed over. *)
Definition troll_results (env : TrollEnv) (msg ip : string) : list (Z * bool) :=
  map (fun p => (p, returns (sendto env msg ip p))) TROLL_PORTS.

Definition success_ports (results : list (Z * bool)) : list string :=
  map (fun r => PyStr.str_Z (fst r)) (filter (fun r => snd r) results).

Definition fail_ports (results : list (Z * bool)) : list string :=
  map (fun r => PyStr.str_Z (fst r)) (filter (fun r => negb (snd r)) results).

(** Lines 238-244. *)
Definition troll_report (sel : Device) (results : list (Z * bool)) : string :=
  let report := "Troll sent to " ++ host sel ++ " (" ++ ip sel ++ ")" ++ newline in
  let report :=
    match success_ports results with
    | [] => report
    | ok => report ++ "Succeeded on ports: " ++ PyStr.join ", " ok ++ newline
    end in
  match fail_ports results with
  | [] => report
  | ko => report ++ "Failed on ports: " ++ PyStr.join ", " ko
  end.

(** [troll_selected] (lines 223-247).  The socket is made outside any
    [try]. *)
Definition troll_selected (env : TrollEnv) (ui : Ui) : outcome Ui :=
  match selected ui with
  | None => Returned ui
  | Some sel =>
      let msg := msg_entry ui in
      let ip := ip sel in
      (_ <- udp_socket env ;;
       let results := troll_results env msg ip in
       let report := troll_report sel results in
       let st := set_info_label ("Last troll: " ++ host sel ++ " (" ++ ip ++ ")") (core ui) in
       let st := set_dialogs (dialogs st ++ [showinfo "Troll Report" report]) st in
       Returned
         (set_core st
            (set_datagrams (datagrams ui ++ map (fun p => (msg, ip, p)) TROLL_PORTS) ui)))%outcome
  end.

(** The UTF-8 bytes of U+1F608 and of U+2026. *)
Definition smiling_imp : string :=
  String (ascii_of_nat 240) (String (ascii_of_nat 159)
    (String (ascii_of_nat 152) (String (ascii_of_nat 136) EmptyString))).
Definition ellipsis : string :=
  String (ascii_of_nat 226) (String (ascii_of_nat 128)
    (String (ascii_of_nat 166) EmptyString)).

(** [__init__] (lines 64-116), on a screen of [width] by [height], with
    the module global [DEFAULT_SUBNET] already set: the widgets, the first
    scan, the flag, the first frame. *)
Definition init (default_subnet : string) (width height : Z) (env : ScanEnv) : Ui :=
  let center := ((width / 2)%Z, (height / 2)%Z) in
  let st := mkState default_subnet default_subnet ellipsis false [] [] false false [] in
  let ui := mkUi st None ("You have been spotted " ++ smiling_imp) true
                 (Z.min (fst center) (snd center) - 100)%Z 0%Z [] [] in
  let ui := ui_scan_network env ui in
  let ui := set_core (set_running true (core ui)) ui in
  animate ui.

(** The module body and [__main__]: line 27, then line 250. *)
Definition main (senv : SocketEnv) (width height : Z) (env : ScanEnv) : outcome Ui :=
  (default_subnet <- get_local_subnet senv ;;
   Returned (init default_subnet width height env))%outcome.

(** The device has its coordinates. *)
Definition has_xy (d : Device) : bool :=
  match xy d with Some _ => true | None => false end.

(** An operating system that hands out a socket and takes every
    datagram. *)
Definition env_all_sent : TrollEnv :=
  mkTrollEnv (Returned tt) (fun _ _ _ => Returned tt).

(** One that refuses the datagrams to ports 5353 and 137. *)
Definition env_some_refused : TrollEnv :=
  mkTrollEnv (Returned tt)
    (fun _ _ p => if ((p =? 5353) || (p =? 137))%Z
                  then Raised (OSError "Network is unreachable")
                  else Returned tt).

Definition ui_idle : Ui :=
  mkUi st_two_old None "hello" true 440%Z 0%Z [] [].

(** ** mitm/inject.py *)
Module Inject.

(** [sub in s] *)
Fixpoint contains_sub (sub s : string) : bool :=
  match s with
  | EmptyString => PyStr.startswith s sub
  | String _ s' => PyStr.startswith s sub || contains_sub sub s'
  end.

(** [s.replace(old, new)] for a pattern [old] that is not empty: the
    occurrences are taken from the left and do not overlap.  [skip] counts
    the characters of a matched occurrence still to be passed over. *)
Fixpoint replace_from (skip : nat) (old new s : string) : string :=
  match s with
  | EmptyString => EmptyString
  | String c s' =>
      match skip with
      | S k => replace_from k old new s'
      | O =>
          if PyStr.startswith s old
          then new ++ replace_from (String.length old - 1) old new s'
          else String c (replace_from 0 old new s')
      end
  end.

Definition replace (old new s : string) : string := replace_from 0 old new s.

(** What [response] uses of [flow.response]: the value
    [headers.get("content-type")] finds, if any, and the decoded body. *)
Record Response : Type := mkResponse {
  content_type : option string;
  text : string
}.

Definition injection : string :=
  "<script>alert('You have been spotted " ++ smiling_imp ++ "');</script>".

(** [response(flow)] *)
Definition response (r : Response) : Response :=
  let ct := match content_type r with Some v => v | None => EmptyString end in
  if contains_sub "text/html" ct
  then mkResponse (content_type r)
                  (replace "</body>" (injection ++ "</body>") (text r))
  else r.

End Inject.

(** ** The methods of the application as the event loop calls them *)

Inductive method : Type :=
| m_update_subnet                            (* the Set button *)
| m_toggle_fullscreen                        (* the Escape key *)
| m_on_close                                 (* WM_DELETE_WINDOW *)
| m_scan_network (env : ScanEnv)             (* a turn of scan_loop *)
| m_animate                                  (* the 50 ms timer *)
| m_on_select (dev : Device)                 (* a click on a dot *)
| m_troll_selected (env : TrollEnv).         (* the Troll button *)

(** One call.  An exception that leaves [troll_selected] ends that call
    and nothing else: it has changed no attribute by then. *)
Definition call (ui : Ui) (m : method) : Ui :=
  match m with
  | m_update_subnet => ui_update_subnet ui
  | m_toggle_fullscreen => toggle_fullscreen ui
  | m_on_close => ui_on_close ui
  | m_scan_network env => ui_scan_network env ui
  | m_animate => animate ui
  | m_on_select dev => on_select dev ui
  | m_troll_selected env => catch (troll_selected env ui) (fun _ => ui)
  end.

Definition calls (ms : list method) (ui : Ui) : Ui := fold_left call ms ui.

Definition is_scan (m : method) : bool :=
  match m with m_scan_network _ => true | _ => false end.

Definition is_close (m : method) : bool :=
  match m with m_on_close => true | _ => false end.

(* ================================================================== *)
(** * Theorems *)
(* ================================================================== *)

(** ** Strings *)

Section StringFacts.

Import PyStr.

Lemma upper_ascii_colon (c : ascii) :
  Ascii.eqb (upper_ascii c) ":"%char = Ascii.eqb c ":"%char.
Proof.
  destruct c as [[] [] [] [] [] [] [] []]; reflexivity.
Qed.

(** Uppercasing and dropping the colons commute. *)
Lemma remove_colon_upper (s : string) :
  remove_char ":"%char (upper s) = upper (remove_char ":"%char s).
Proof.
  induction s as [|c s IH]; simpl; [reflexivity|].
  rewrite upper_ascii_colon.
  destruct (Ascii.eqb c ":"%char); simpl; now rewrite IH.
Qed.

Lemma slice_to_slice_to (n m : nat) (s : string) :
  n <= m -> slice_to n (slice_to m s) = slice_to n s.
Proof.
  revert m s; induction n as [|n IH]; intros m s Hle.
  - now destruct (slice_to m s).
  - destruct m as [|m]; [lia|].
    destruct s as [|c s]; simpl; [reflexivity|].
    f_equal; apply IH; lia.
Qed.

(** [startswith] looks at no more characters than the prefix has. *)
Lemma startswith_slice_to (n : nat) (s p : string) :
  String.length p <= n -> startswith (slice_to n s) p = startswith s p.
Proof.
  revert n s; induction p as [|a p IH]; intros n s Hlen.
  - now destruct (slice_to n s), s.
  - simpl in Hlen. destruct n as [|n]; [lia|].
    destruct s as [|b s]; simpl; [reflexivity|].
    f_equal; apply IH; lia.
Qed.

Lemma contains_app (c : ascii) (s t : string) :
  contains c (s ++ t) = contains c s || contains c t.
Proof.
  induction s as [|d s IH]; simpl; [reflexivity|].
  now rewrite IH, orb_assoc.
Qed.

(** A string without the separator is a single field. *)
Lemma split_no_sep (sep : ascii) (s : string) :
  contains sep s = false -> split sep s = [s].
Proof.
  induction s as [|c s IH]; simpl; intros H; [reflexivity|].
  apply orb_false_iff in H as [Hc Hs].
  now rewrite Hc, (IH Hs).
Qed.

(** The first field ends at the first separator. *)
Lemma split_app_sep (sep : ascii) (s t : string) :
  contains sep s = false ->
  split sep (s ++ String sep t) = s :: split sep t.
Proof.
  induction s as [|c s IH]; simpl; intros H.
  - now rewrite Ascii.eqb_refl.
  - apply orb_false_iff in H as [Hc Hs].
    now rewrite Hc, (IH Hs).
Qed.

End StringFacts.

(** ** The classifier *)

Lemma vendor_of_normalize (m : string) :
  vendor_of m = PyStr.slice_to 6 (ClassifySpec.normalize m).
Proof.
  unfold vendor_of, ClassifySpec.normalize.
  now rewrite remove_colon_upper.
Qed.

(** The guess read off the first four characters of the normalized
    address. *)
Lemma classify_by_first_four (m : string) :
  classify m = os_of_vendor (PyStr.slice_to 4 (ClassifySpec.normalize m)).
Proof.
  unfold classify, os_of_vendor.
  rewrite vendor_of_normalize.
  set (n := ClassifySpec.normalize m).
  rewrite <- !(startswith_slice_to 4 (PyStr.slice_to 6 n)) by (simpl; lia).
  rewrite slice_to_slice_to by lia.
  reflexivity.
Qed.

(** The code's string operations against the library's and the table of
    letters. *)
Lemma upper_ascii_capital (c : ascii) :
  PyStr.upper_ascii c = ClassifySpec.capital c.
Proof.
  destruct c as [[] [] [] [] [] [] [] []]; reflexivity.
Qed.

Lemma upper_uppercase (s : string) : PyStr.upper s = ClassifySpec.uppercase s.
Proof.
  induction s as [|c s IH]; simpl; [reflexivity|].
  now rewrite upper_ascii_capital, IH.
Qed.

Lemma remove_colon_without_colons (s : string) :
  PyStr.remove_char ":"%char s = ClassifySpec.without_colons s.
Proof.
  induction s as [|c s IH]; [reflexivity|].
  destruct c as [[] [] [] [] [] [] [] []]; simpl; now rewrite IH.
Qed.

Lemma slice_to_substring (n : nat) (s : string) :
  PyStr.slice_to n s = String.substring 0 n s.
Proof.
  revert s; induction n as [|n IH]; intros [|c s]; simpl; try reflexivity.
  now rewrite IH.
Qed.

Lemma startswith_prefix (s p : string) :
  PyStr.startswith s p = String.prefix p s.
Proof.
  revert s; induction p as [|a p IH]; intros [|b s]; simpl; try reflexivity.
  destruct (ascii_dec a b) as [->|Hab].
  - now rewrite Ascii.eqb_refl, IH.
  - apply Ascii.eqb_neq in Hab. now rewrite Hab.
Qed.

(** C2. The three hardware addresses of the example are classified Apple,
    Windows and Unknown, as they stand and in the lower case in which the
    probe reports them, also when they arrive as probe results of a scan;
    and on every address the classifier of [scan_network] agrees with
    "strip the colons, uppercase, keep six characters, look up the prefix
    table, default Unknown", the letters being uppercased by a lookup in
    the alphabet that owes nothing to the code. *)
Theorem C2_classify_examples_and_table :
  map classify ["5C:1F:00:11:22:33"; "FC:FB:AA:BB:CC:DD"; "00:00:00:00:00:00"]
    = [Apple; Windows; Unknown]
  /\ map classify ["5c:1f:00:11:22:33"; "fc:fb:aa:bb:cc:dd"; "a1:b2:c3:d4:e5:f6"]
     = [Apple; Windows; Android]
  /\ (forall resolve draw st,
        map os (devices (scan_network
          (mkScanEnv (fun _ => Returned [ mkReply "10.0.0.5" "5C:1F:00:11:22:33";
                                          mkReply "10.0.0.6" "FC:FB:AA:BB:CC:DD";
                                          mkReply "10.0.0.7" "00:00:00:00:00:00" ])
                     resolve draw) st))
        = [Apple; Windows; Unknown])
  /\ (forall resolve draw st,
        map os (devices (scan_network
          (mkScanEnv (fun _ => Returned [ mkReply "10.0.0.5" "5c:1f:00:11:22:33";
                                          mkReply "10.0.0.6" "fc:fb:aa:bb:cc:dd";
                                          mkReply "10.0.0.7" "00:00:00:00:00:00" ])
                     resolve draw) st))
        = [Apple; Windows; Unknown])
  /\ (forall m, classify m = ClassifySpec.classify_spec m)
  /\ (forall m, classify m = ClassifySpec.classify_words m).
Proof.
  repeat split.
  - intros m. unfold classify, ClassifySpec.classify_spec.
    rewrite vendor_of_normalize. reflexivity.
  - intros m. unfold classify, ClassifySpec.classify_words, vendor_of, os_of_vendor.
    rewrite remove_colon_upper, remove_colon_without_colons, upper_uppercase,
      slice_to_substring.
    cbn [ClassifySpec.find_prefix ClassifySpec.prefix_table].
    now rewrite !startswith_prefix.
Qed.

(** C9. Two hardware addresses whose colon-stripped, uppercased forms have
    the same first four characters get the same OS guess: nothing after
    the fourth character is looked at. *)
Theorem C9_first_four_decide (m1 m2 : string) :
  PyStr.slice_to 4 (ClassifySpec.normalize m1)
    = PyStr.slice_to 4 (ClassifySpec.normalize m2) ->
  classify m1 = classify m2.
Proof.
  intros H. rewrite !classify_by_first_four. now rewrite H.
Qed.

Lemma C9_first_four_decide_witness :
  classify "5c:1f:00:11:22:33" = classify "5C1FFFFFFFFF".
Proof.
  apply (C9_first_four_decide "5c:1f:00:11:22:33" "5C1FFFFFFFFF").
  reflexivity.
Defined.

(** ** One scan cycle *)

Lemma append_found_placed env k found devs :
  append_found env k found devs = (devs ++ placed env k found)%list.
Proof.
  revert k devs; induction found as [|d rest IH]; intros k devs; simpl.
  - now rewrite app_nil_r.
  - rewrite IH, <- app_assoc. reflexivity.
Qed.

(** The table a call of [scan_network] leaves behind. *)
Lemma scan_network_devices env st :
  devices (scan_network env st)
  = placed env 0 (map (assemble env) (probe env (subnet_var st))).
Proof.
  unfold scan_network; simpl. now rewrite append_found_placed.
Qed.

Lemma scan_network_info_label env st :
  info_label (scan_network env st)
  = PyStr.str_nat (length (devices (scan_network env st))) ++ " devices found".
Proof. reflexivity. Qed.

Lemma placed_length env k found : length (placed env k found) = length found.
Proof.
  revert k; induction found as [|d rest IH]; intros k; simpl; [reflexivity|].
  now rewrite IH.
Qed.

(** Placing a device changes its coordinates only. *)
Lemma map_placed {A : Type} (f : Device -> A) env k found :
  (forall p d, f (place p d) = f d) ->
  map f (placed env k found) = map f found.
Proof.
  intros Hf. revert k; induction found as [|d rest IH]; intros k; simpl.
  - reflexivity.
  - now rewrite Hf, IH.
Qed.

Lemma nth_error_placed env k found j :
  nth_error (placed env k found) j
  = option_map (place (uniform_xy env (k + j))) (nth_error found j).
Proof.
  revert k j; induction found as [|d rest IH]; intros k [|j]; simpl; try reflexivity.
  - now rewrite Nat.add_0_r.
  - rewrite IH. now replace (S k + j) with (k + S j) by lia.
Qed.

(** C3. Whether the ARP sweep raises or answers with no reply, the scan
    cycle runs to its end and leaves an empty table, whatever devices the
    table held before; the label reports zero devices and no dialog is
    raised. *)
Theorem C3_failed_or_empty_probe_publishes_empty env st :
  (exists e, arping env (subnet_var st) = Raised e)
  \/ arping env (subnet_var st) = Returned [] ->
  devices (scan_network env st) = []
  /\ info_label (scan_network env st) = "0 devices found"
  /\ dialogs (scan_network env st) = dialogs st.
Proof.
  intros H.
  assert (Hp : probe env (subnet_var st) = []).
  { unfold probe. destruct H as [[e He] | He]; rewrite He; reflexivity. }
  rewrite scan_network_info_label, scan_network_devices, Hp.
  repeat split.
Qed.

Lemma C3_failed_or_empty_probe_publishes_empty_witness :
  devices st_stale = [stale_device]
  /\ devices (scan_network env_no_permission st_stale) = [].
Proof.
  split; [reflexivity|].
  apply (C3_failed_or_empty_probe_publishes_empty env_no_permission st_stale).
  left. exists (OSError "Operation not permitted"). reflexivity.
Defined.

(** C5, as stated, fails: scapy reports hardware addresses in lower case,
    and such an address is stored as it came. *)
Lemma C5_counterexample :
  map mac (devices (scan_network env_lower_case st_stale)) = ["5c:1f:00:11:22:33"]
  /\ map canonical_mac (map mac (devices (scan_network env_lower_case st_stale)))
     = [false]
  /\ canonical_mac "5C:1F:00:11:22:33" = true.
Proof. repeat split. Qed.

(** C5, amended. Every Device of a scan cycle stores in [mac] the
    hardware address exactly as the probe returned it, in the order of the
    replies; uppercasing and colon stripping touch only the vendor prefix
    used for the guess. *)
Theorem C5_mac_stored_verbatim env st :
  map mac (devices (scan_network env st))
  = map hwsrc (probe env (subnet_var st)).
Proof.
  rewrite scan_network_devices, map_placed by reflexivity.
  rewrite map_map. reflexivity.
Qed.

(** C6, as stated, fails: two replies for one IP give two Devices with
    that IP, the first one included. *)
Lemma C6_counterexample :
  map mac (with_ip "10.0.0.5" (devices (scan_network env_duplicate_ip st_stale)))
    = ["5c:1f:00:11:22:33"; "fc:fb:aa:bb:cc:dd"]
  /\ unique_ips (devices (scan_network env_duplicate_ip st_stale)) = false.
Proof. split; reflexivity. Qed.

(** C6, amended. Table assembly keeps one Device per raw (ip, mac) pair,
    in probe order: the IPs of the table are the IPs of the replies, with
    their repetitions, and for every IP the table holds as many Devices as
    the probe returned pairs with that IP. *)
Theorem C6_one_device_per_reply env st :
  map ip (devices (scan_network env st)) = map psrc (probe env (subnet_var st))
  /\ length (devices (scan_network env st)) = length (probe env (subnet_var st))
  /\ forall a,
       length (with_ip a (devices (scan_network env st)))
       = length (filter (fun r => String.eqb (psrc r) a) (probe env (subnet_var st))).
Proof.
  rewrite scan_network_devices.
  set (ans := probe env (subnet_var st)).
  split; [|split].
  - rewrite map_placed by reflexivity. now rewrite map_map.
  - now rewrite placed_length, length_map.
  - intros a. unfold with_ip.
    generalize 0. induction ans as [|r ans IH]; intros k; simpl; [reflexivity|].
    destruct (String.eqb (psrc r) a); simpl; now rewrite IH.
Qed.

(** ** Subnet validation *)



(** ** The local subnet *)

Section DottedQuad.

Import IPAddress.
Local Open Scope Z_scope.

(** Every byte prints as such a field. *)
Lemma octet_text_of_byte (b : byte) :
  octet_text (PyStr.str_nat (Byte.to_nat b)) (Z.of_nat (Byte.to_nat b)).
Proof.
  destruct b; vm_compute; intuition congruence.
Qed.

Lemma byte_range (b : byte) : 0 <= Z.of_nat (Byte.to_nat b) < 256.
Proof. apply (octet_text_of_byte b). Qed.

Lemma octet_text_nonempty s z :
  octet_text s z -> exists c s', s = String c s'.
Proof.
  intros (_ & _ & Hp & _). destruct s as [|c s']; [discriminate|eauto].
Qed.

(** Masking with 255.255.255.0 clears the last byte. *)
Lemma land_mask24 (x : Z) :
  0 <= x < 2 ^ 32 -> Z.land x 4294967040 = x / 256 * 256.
Proof.
  intros Hx.
  change 4294967040 with (Z.land (Z.ones 32) (Z.lnot (Z.ones 8))).
  rewrite Z.land_assoc, Z.land_ones by lia.
  rewrite Z.mod_small by lia.
  rewrite <- Z.ldiff_land, Z.ldiff_ones_r by lia.
  rewrite Z.shiftr_div_pow2, Z.shiftl_mul_pow2 by lia.
  reflexivity.
Qed.

Lemma to_bytes4_from_bytes (z1 z2 z3 z4 : Z) :
  0 <= z1 < 256 -> 0 <= z2 < 256 -> 0 <= z3 < 256 -> 0 <= z4 < 256 ->
  to_bytes4 (from_bytes_big [z1; z2; z3; z4]) = [z1; z2; z3; z4].
Proof.
  intros H1 H2 H3 H4. unfold to_bytes4, from_bytes_big; simpl fold_left.
  change 255 with (Z.ones 8).
  rewrite !Z.land_ones, !Z.shiftr_div_pow2 by lia.
  change (2 ^ 24) with 16777216; change (2 ^ 16) with 65536;
    change (2 ^ 8) with 256.
  repeat f_equal; Z.div_mod_to_equations; lia.
Qed.

(** The network of ["s1.s2.s3.s4/24"], parsed without [strict]. *)
Lemma network24_of_dotted s1 s2 s3 s4 z1 z2 z3 z4 :
  octet_text s1 z1 -> octet_text s2 z2 ->
  octet_text s3 z3 -> octet_text s4 z4 ->
  IPv4Network (PyStr.join "." [s1; s2; s3; s4] ++ "/24") false
  = Returned (mkNetwork (from_bytes_big [z1; z2; z3; 0]) 4294967040 24).
Proof.
  intros O1 O2 O3 O4.
  destruct (octet_text_nonempty _ _ O1) as (c1 & t1 & E1).
  destruct O1 as (S1 & D1 & P1 & B1), O2 as (S2 & D2 & P2 & B2),
           O3 as (S3 & D3 & P3 & B3), O4 as (S4 & D4 & P4 & B4).
  set (dotted := PyStr.join "." [s1; s2; s3; s4]).
  assert (Hslash : PyStr.contains "/"%char dotted = false).
  { unfold dotted; simpl PyStr.join.
    repeat (rewrite contains_app; cbn [PyStr.contains]).
    rewrite S1, S2, S3, S4. reflexivity. }
  assert (Hsplit : PyStr.split "."%char dotted = [s1; s2; s3; s4]).
  { unfold dotted; simpl PyStr.join.
    change ("." ++ ?x)%string with (String "."%char x).
    rewrite !split_app_sep by assumption.
    now rewrite split_no_sep. }
  assert (Haddr : IPv4Address dotted = Returned (from_bytes_big [z1; z2; z3; z4])).
  { unfold IPv4Address, ip_int_from_string.
    rewrite Hslash, Hsplit.
    assert (Hne : exists c t, dotted = String c t).
    { unfold dotted; simpl PyStr.join. rewrite E1. simpl. eauto. }
    destruct Hne as (c & t & ->).
    simpl length. simpl negb. cbv iota.
    unfold parse_octets. rewrite P1, P2, P3, P4. reflexivity. }
  unfold IPv4Network, split_addr_prefix, split_optional_netmask.
  change (dotted ++ "/24")%string with (dotted ++ String "/"%char "24")%string.
  rewrite split_app_sep by assumption.
  change (PyStr.split "/"%char "24") with ["24"%string].
  simpl bind at 1. simpl bind at 1.
  rewrite Haddr. simpl bind at 1.
  simpl bind.
  change (ip_int_from_prefix (PyStr.int "24")) with 4294967040.
  change (PyStr.int "24") with 24.
  assert (Hland : Z.land (from_bytes_big [z1; z2; z3; z4]) 4294967040
                  = from_bytes_big [z1; z2; z3; 0]).
  { rewrite land_mask24 by (unfold from_bytes_big; simpl; lia).
    unfold from_bytes_big; simpl. Z.div_mod_to_equations; lia. }
  rewrite Hland.
  destruct (Z.eqb_spec (from_bytes_big [z1; z2; z3; 0])
                       (from_bytes_big [z1; z2; z3; z4])) as [E|NE]; simpl.
  - now rewrite <- E.
  - reflexivity.
Qed.

Lemma str_network24 (z1 z2 z3 : Z) :
  0 <= z1 < 256 -> 0 <= z2 < 256 -> 0 <= z3 < 256 ->
  str (mkNetwork (from_bytes_big [z1; z2; z3; 0]) 4294967040 24)
  = (PyStr.join "." [PyStr.str_Z z1; PyStr.str_Z z2; PyStr.str_Z z3; "0"]
     ++ "/24")%string.
Proof.
  intros H1 H2 H3. unfold str, str_address; simpl network_address.
  rewrite to_bytes4_from_bytes by lia. reflexivity.
Qed.

End DottedQuad.

(** ** Texts that are not CIDR syntax *)
























(** C7, as stated, fails: without a route the function returns the
    network "127.0.0.0/24", not the text "127.0.0.1/24"; and when the
    socket cannot be created, the error leaves the function. *)
Lemma C7_counterexample :
  get_local_subnet env_no_route = Returned "127.0.0.0/24"
  /\ get_local_subnet env_no_route <> Returned "127.0.0.1/24"
  /\ returns (get_local_subnet env_no_socket) = false.
Proof.
  split; [reflexivity | split; [discriminate | reflexivity]].
Qed.

(** C7, amended. Once the socket exists, [get_local_subnet] returns and
    does not raise, whatever [connect] and [getsockname] do: when either
    of them fails the value is "127.0.0.0/24", the /24 network of the
    fallback address 127.0.0.1; otherwise it is the /24 network of the
    local address, "b1.b2.b3.0/24". *)
Theorem C7_local_subnet_is_network_base (c : outcome unit) (g : outcome in_addr) :
  get_local_subnet (mkSocketEnv (Returned tt) c g)
  = Returned
      match c, g with
      | Returned _, Returned (b1, b2, b3, _) => inet_ntoa (b1, b2, b3, x00%byte) ++ "/24"
      | _, _ => "127.0.0.0/24"
      end.
Proof.
  unfold get_local_subnet; cbn [socket_socket connect getsockname bind].
  destruct c as [[]|e]; [destruct g as [[[[b1 b2] b3] b4]|e]|]; cbn [catch bind];
    try reflexivity.
  unfold inet_ntoa; cbn [map].
  rewrite (network24_of_dotted _ _ _ _ _ _ _ _
             (octet_text_of_byte b1) (octet_text_of_byte b2)
             (octet_text_of_byte b3) (octet_text_of_byte b4)).
  cbn [bind]. f_equal.
  rewrite str_network24 by apply byte_range.
  unfold PyStr.str_Z. now rewrite !Nat2Z.id.
Qed.

(** ** The table under a concurrent reader *)

Lemma firstn_snoc {A : Type} (l : list A) (k : nat) (x : A) :
  nth_error l k = Some x -> firstn (S k) l = (firstn k l ++ [x])%list.
Proof.
  revert k; induction l as [|a l IH]; intros [|k] H; simpl in *; try discriminate.
  - now inversion H.
  - now rewrite (IH k H).
Qed.

Lemma nth_error_firstn_some {A : Type} (l : list A) (k i : nat) (x : A) :
  nth_error (firstn k l) i = Some x -> nth_error l i = Some x.
Proof.
  rewrite nth_error_firstn. destruct (i <? k)%nat; [trivial | discriminate].
Qed.

Lemma nth_error_snoc {A : Type} (l : list A) (x y : A) (j : nat) :
  nth_error (l ++ [x]) j = Some y ->
  (j < length l /\ nth_error l j = Some y) \/ (j = length l /\ y = x).
Proof.
  intros H. destruct (Nat.lt_ge_cases j (length l)) as [Hlt|Hge].
  - left. rewrite nth_error_app1 in H by assumption. auto.
  - right. rewrite nth_error_app2 in H by assumption.
    destruct (j - length l) as [|n] eqn:E; simpl in H.
    + inversion H. split; [lia | reflexivity].
    + destruct n; discriminate.
Qed.

Section CycleFacts.

Variable env : ScanEnv.
Variable st0 : State.

Local Notation "'found0'" := (map (assemble env) (probe env (subnet_var st0))).

Lemma new_table_placed : new_table env st0 = placed env 0 found0.
Proof. apply scan_network_devices. Qed.

Lemma new_table_length : length (new_table env st0) = length found0.
Proof. rewrite new_table_placed. apply placed_length. Qed.

(** At every program point the table is the old one or a prefix of the
    new one. *)
Lemma table_inv_cases pc devs :
  table_inv env st0 pc devs ->
  devs = old_table st0
  \/ exists k, k <= length (new_table env st0) /\ devs = firstn k (new_table env st0).
Proof.
  destruct pc; simpl; intros H.
  1-3: left; tauto.
  - right. destruct H as (_ & Hk & ->). exists k. now rewrite new_table_length.
  - right. exists (length (new_table env st0)). now rewrite firstn_all.
  - right. exists (length (new_table env st0)). now rewrite firstn_all.
Qed.

Lemma table_inv_lookup pc devs i d :
  table_inv env st0 pc devs ->
  nth_error devs i = Some d ->
  nth_error (old_table st0) i = Some d \/ nth_error (new_table env st0) i = Some d.
Proof.
  intros Hinv Hn.
  destruct (table_inv_cases _ _ Hinv) as [-> | (k & _ & ->)]; [now left | right].
  eapply nth_error_firstn_some; eassumption.
Qed.

Lemma cycle_inv_start : cycle_inv env st0 (Cycle.start st0).
Proof. repeat split. Qed.

Lemma cycle_inv_scanner w :
  cycle_inv env st0 w -> cycle_inv env st0 (Cycle.step env w Cycle.scanner).
Proof.
  destruct w as [st pc dpc]. intros (Hsub & Htab & Hdraw).
  unfold Cycle.step; simpl in *.
  destruct pc as [|ans|found|found k| |]; simpl in *.
  - rewrite Hsub. repeat split; assumption.
  - destruct Htab as [-> Hd]. repeat split; assumption.
  - destruct Htab as [-> _]. repeat split; try assumption. lia.
  - destruct Htab as (-> & Hk & Hd).
    destruct (nth_error found0 k) as [d|] eqn:E; simpl.
    + repeat split; try assumption.
      * apply Nat.le_succ_l. apply nth_error_Some. congruence.
      * cbn [devices Cycle.shared set_devices]. rewrite Hd. symmetry. apply firstn_snoc.
        rewrite new_table_placed, nth_error_placed, E. reflexivity.
    + repeat split; try assumption.
      cbn [devices Cycle.shared]. rewrite Hd. apply firstn_all2.
      rewrite new_table_length. now apply nth_error_None.
  - repeat split; assumption.
  - repeat split; assumption.
Qed.

Lemma cycle_inv_drawer w :
  cycle_inv env st0 w -> cycle_inv env st0 (Cycle.step env w Cycle.drawer).
Proof.
  destruct w as [st pc dpc]. intros (Hsub & Htab & Hdraw).
  unfold Cycle.step; simpl in *.
  destruct dpc as [|i drawn|drawn]; simpl in *.
  - repeat split; try assumption. intros [|j] d; discriminate.
  - destruct Hdraw as [Hlen Hfrom].
    destruct (nth_error (devices st) i) as [d|] eqn:E; simpl.
    + repeat split; try assumption.
      * rewrite length_app; simpl; lia.
      * intros j d' Hj.
        destruct (nth_error_snoc _ _ _ _ Hj) as [[_ Hin] | [-> ->]].
        -- now apply Hfrom.
        -- rewrite Hlen. eapply table_inv_lookup; eassumption.
    + repeat split; assumption.
  - repeat split; try assumption. intros [|j] d; discriminate.
Qed.

Lemma cycle_inv_run sched w :
  cycle_inv env st0 w -> cycle_inv env st0 (Cycle.run env sched w).
Proof.
  revert w; induction sched as [|t sched IH]; intros w Hw; [exact Hw|].
  simpl. apply IH. destruct t; [now apply cycle_inv_scanner | now apply cycle_inv_drawer].
Qed.

End CycleFacts.

(** The scanner thread left alone runs through a whole call: arping,
    assembly, the clear, one append per device and the final test of the
    loop, the label.  The state it ends in is the one [scan_network]
    computes. *)
Lemma append_steps env dpc (found rest pre : list Device) (st : State) :
  found = (pre ++ rest)%list ->
  Cycle.run env (repeat Cycle.scanner (length rest + 1))
            (Cycle.mkWorld st (pc_append found (length pre)) dpc)
  = Cycle.mkWorld
      (set_devices (append_found env (length pre) rest (devices st)) st)
      pc_label dpc.
Proof.
  revert pre st; induction rest as [|d rest IH]; intros pre st Hf.
  - simpl. unfold Cycle.step; simpl.
    assert (Hn : nth_error found (length pre) = None).
    { apply nth_error_None. subst found. rewrite app_nil_r. lia. }
    rewrite Hn. now destruct st.
  - cbn [length Nat.add repeat Cycle.run fold_left].
    assert (Hn : nth_error found (length pre) = Some d).
    { subst found. rewrite nth_error_app2, Nat.sub_diag by lia. reflexivity. }
    unfold Cycle.step at 2; cbn [Cycle.scan Cycle.shared Cycle.draw scan_step].
    rewrite Hn.
    specialize (IH (pre ++ [d])%list
                   (set_devices (devices st ++ [place (uniform_xy env (length pre)) d]) st)).
    rewrite length_app in IH; cbn [length] in IH.
    rewrite (Nat.add_1_r (length pre)) in IH.
    unfold Cycle.run in IH. rewrite IH by (now rewrite <- app_assoc).
    reflexivity.
Qed.

Lemma run_app env (s1 s2 : list Cycle.thread) (w : Cycle.World) :
  Cycle.run env (s1 ++ s2) w = Cycle.run env s2 (Cycle.run env s1 w).
Proof. apply fold_left_app. Qed.

Lemma scanner_alone_runs_scan_network env st0 :
  Cycle.run env
    (repeat Cycle.scanner (length (probe env (subnet_var st0)) + 5))
    (Cycle.start st0)
  = Cycle.mkWorld (scan_network env st0) pc_return dr_idle.
Proof.
  set (found := map (assemble env) (probe env (subnet_var st0))).
  replace (length (probe env (subnet_var st0)) + 5)
    with (3 + ((length found + 1) + 1))
    by (unfold found; rewrite length_map; lia).
  rewrite (repeat_app _ 3), (repeat_app _ (length found + 1) 1), !run_app.
  change (Cycle.run env (repeat Cycle.scanner 3) (Cycle.start st0))
    with (Cycle.mkWorld
            (set_troll_btn_enabled false (set_tooltips [] (set_devices [] st0)))
            (pc_append found (length (@nil Device))) dr_idle).
  rewrite (append_steps env dr_idle found found [] _ eq_refl).
  reflexivity.
Qed.

(** C1, as stated, fails.  With two devices in the table and two hosts
    answering: after the clear and the first append the table holds one
    device of the new cycle and nothing else; and a redraw that fetched
    its first device before the clear and its second after the appends has
    drawn one device of the old table and one of the new. *)
Lemma C1_counterexample :
  let rebuilding :=
    Cycle.run env_two_hosts
      (repeat Cycle.scanner 4) (Cycle.start st_two_old) in
  let redrawn :=
    Cycle.run env_two_hosts
      ([Cycle.drawer; Cycle.drawer] ++ repeat Cycle.scanner 5
         ++ [Cycle.drawer; Cycle.drawer])
      (Cycle.start st_two_old) in
  old_table st_two_old = [old_a; old_b]
  /\ new_table env_two_hosts st_two_old = [new_c; new_d]
  /\ devices (Cycle.shared rebuilding) = [new_c]
  /\ Cycle.obtained redrawn = Some [old_a; new_d]
  /\ Cycle.obtained redrawn <> Some (old_table st_two_old)
  /\ Cycle.obtained redrawn <> Some (new_table env_two_hosts st_two_old).
Proof.
  repeat split; try reflexivity; vm_compute; discriminate.
Qed.

(** C1, amended. Whatever the interleaving of one scan cycle with the
    redraws, the shared table holds at every instant the previous complete
    sequence or a prefix of the new one, and which of them is fixed by
    where the scanner stands: the previous sequence up to the clear, the
    first [k] devices of the new sequence after the clear and [k] appends
    (none right after the clear, all of them after the last append), and
    the whole new sequence from then on, at the label and once the scan
    has returned.  A redraw that runs meanwhile draws at each position the
    device the old or the new sequence has at that position. *)
Theorem C1_table_is_old_or_prefix_of_new env st0 sched :
  let w := Cycle.run env sched (Cycle.start st0) in
  (devices (Cycle.shared w) = old_table st0
   \/ exists k, k <= length (new_table env st0)
                /\ devices (Cycle.shared w) = firstn k (new_table env st0))
  /\ match Cycle.scan w with
     | pc_arping | pc_assemble _ | pc_clear _ =>
         devices (Cycle.shared w) = old_table st0
     | pc_append _ k =>
         k <= length (new_table env st0)
         /\ devices (Cycle.shared w) = firstn k (new_table env st0)
     | pc_label | pc_return =>
         devices (Cycle.shared w) = new_table env st0
     end
  /\ (forall drawn j d,
        Cycle.obtained w = Some drawn ->
        nth_error drawn j = Some d ->
        nth_error (old_table st0) j = Some d
        \/ nth_error (new_table env st0) j = Some d).
Proof.
  intros w.
  destruct (cycle_inv_run env st0 sched _ (cycle_inv_start env st0))
    as (_ & Htab & Hdraw).
  fold w in Htab, Hdraw.
  split; [|split].
  - eapply table_inv_cases; eassumption.
  - unfold table_inv in Htab.
    destruct (Cycle.scan w) as [|ans|found|found k| |]; try tauto.
    destruct Htab as (_ & Hk & Hd). rewrite new_table_length. auto.
  - intros drawn j d Hob Hj. unfold Cycle.obtained in Hob.
    destruct (Cycle.draw w) as [|i dr|dr]; try discriminate.
    inversion Hob; subst dr. now apply Hdraw.
Qed.

Lemma C1_table_is_old_or_prefix_of_new_witness :
  devices (Cycle.shared
             (Cycle.run env_two_hosts
                (repeat Cycle.scanner 5) (Cycle.start st_two_old)))
  = firstn 2 (new_table env_two_hosts st_two_old)
  /\ devices (Cycle.shared
                (Cycle.run env_two_hosts
                   (repeat Cycle.scanner 7) (Cycle.start st_two_old)))
     = [new_c; new_d].
Proof.
  split.
  - apply (proj1 (proj2 (C1_table_is_old_or_prefix_of_new env_two_hosts st_two_old
                           (repeat Cycle.scanner 5)))).
  - apply (proj1 (proj2 (C1_table_is_old_or_prefix_of_new env_two_hosts st_two_old
                           (repeat Cycle.scanner 7)))).
Defined.

(** ** Closing the window while the loop runs *)

Lemma scan_step_running env pc st :
  running (snd (scan_step env pc st)) = running st.
Proof.
  destruct pc as [|ans|found|found k| |]; simpl; try reflexivity.
  now destruct (nth_error found k).
Qed.

(** A scanner step starts a scan only when the flag is set. *)
Lemma loop_step_flag_down envs w :
  running (Loop.shared w) = false ->
  running (Loop.shared (Loop.loop_step envs w)) = false
  /\ Loop.scans (Loop.loop_step envs w) = Loop.scans w.
Proof.
  intros Hr. unfold Loop.loop_step.
  destruct (Loop.loop w) as [|pc| |]; simpl.
  - rewrite Hr. simpl. auto.
  - pose proof (scan_step_running (envs (Loop.scans w)) pc (Loop.shared w)) as Hs.
    destruct pc; simpl in *; auto.
    destruct (nth_error found k); simpl in *; auto.
  - auto.
  - auto.
Qed.

Lemma run_flag_down envs evs w :
  running (Loop.shared w) = false ->
  running (Loop.shared (Loop.run envs evs w)) = false
  /\ Loop.scans (Loop.run envs evs w) = Loop.scans w.
Proof.
  revert w; induction evs as [|e evs IH]; intros w Hr; [auto|].
  simpl. destruct e; simpl.
  - destruct (loop_step_flag_down envs w Hr) as [Hr' Hs'].
    destruct (IH _ Hr') as [H1 H2]. split; [exact H1 | congruence].
  - apply (IH (Loop.mkWorld (on_close (Loop.shared w)) (Loop.loop w) (Loop.scans w))).
    reflexivity.
Qed.

(** C8, as stated, fails: [on_close] run while the ARP sweep of a scan is
    under way leaves the application stopped with that scan unpublished,
    the table still the one of the cycle before; run between two appends
    it leaves the application stopped over a half-built table. *)
Lemma C8_counterexample :
  let during_sweep :=
    Loop.run (fun _ => env_two_hosts)
      [Loop.ev_scanner; Loop.ev_scanner; Loop.ev_on_close]
      (Loop.start st_two_old) in
  let during_rebuild :=
    Loop.run (fun _ => env_two_hosts)
      (repeat Loop.ev_scanner 5 ++ [Loop.ev_on_close])
      (Loop.start st_two_old) in
  Loop.stopped during_sweep = true
  /\ Loop.unpublished during_sweep = true
  /\ devices (Loop.shared during_sweep) = [old_a; old_b]
  /\ Loop.stopped during_rebuild = true
  /\ Loop.unpublished during_rebuild = true
  /\ devices (Loop.shared during_rebuild) = [new_c].
Proof. repeat split. Qed.

(** C8, amended. [on_close] does not wait for the scanner: in one step it
    clears the running flag and destroys the window, and leaves the
    scanner thread where it stands and the table as it is.  What the
    cleared flag does is keep [scan_loop] from beginning another scan:
    from then on the number of scans begun never grows, and the loop test
    leads to the exit. *)
Theorem C8_on_close_returns_at_once envs :
  (forall w,
      let w' := Loop.step envs w Loop.ev_on_close in
      Loop.stopped w' = true
      /\ Loop.loop w' = Loop.loop w
      /\ devices (Loop.shared w') = devices (Loop.shared w)
      /\ Loop.scans w' = Loop.scans w)
  /\ (forall w evs,
        running (Loop.shared w) = false ->
        Loop.scans (Loop.run envs evs w) = Loop.scans w)
  /\ (forall w,
        running (Loop.shared w) = false ->
        Loop.loop w = Loop.lp_test ->
        Loop.loop (Loop.loop_step envs w) = Loop.lp_exit).
Proof.
  split; [|split].
  - intros w. repeat split.
  - intros w evs Hr. apply run_flag_down, Hr.
  - intros w Hr Ht. unfold Loop.loop_step. rewrite Ht, Hr. reflexivity.
Qed.

Lemma C8_on_close_returns_at_once_witness :
  Loop.scans
    (Loop.run (fun _ => env_two_hosts)
       (repeat Loop.ev_scanner 20)
       (Loop.run (fun _ => env_two_hosts)
          [Loop.ev_scanner; Loop.ev_scanner; Loop.ev_on_close]
          (Loop.start st_two_old)))
  = 1.
Proof.
  rewrite (proj1 (proj2 (C8_on_close_returns_at_once (fun _ => env_two_hosts)))
             (Loop.run (fun _ => env_two_hosts)
                [Loop.ev_scanner; Loop.ev_scanner; Loop.ev_on_close]
                (Loop.start st_two_old))
             (repeat Loop.ev_scanner 20) eq_refl).
  reflexivity.
Defined.

(* ================================================================== *)
(** * Further properties of the code *)
(* ================================================================== *)

(** ** The classifier, case by case *)

Lemma startswith_four_iff (s : string) (a b c d : ascii) :
  PyStr.startswith (PyStr.slice_to 4 s)
                   (String a (String b (String c (String d EmptyString)))) = true
  <-> PyStr.slice_to 4 s = String a (String b (String c (String d EmptyString))).
Proof.
  destruct s as [|a' [|b' [|c' [|d' s]]]]; simpl;
    try (split; [discriminate | discriminate]);
    try (rewrite ?andb_false_r; split; discriminate).
  rewrite !andb_true_r, !andb_true_iff, !Ascii.eqb_eq.
  split.
  - intros (-> & -> & -> & ->). reflexivity.
  - intros H. inversion H. auto.
Qed.

(** X1. The guess is Apple exactly when the colon-stripped, uppercased
    address starts with 5C1F, Windows exactly when it starts with FCFB,
    Android exactly when it starts with A1B2, and Unknown in every other
    case, an address of fewer than four such characters included. *)
Theorem X1_classify_characterised (m : string) :
  let four := PyStr.slice_to 4 (ClassifySpec.normalize m) in
  (classify m = Apple <-> four = "5C1F")
  /\ (classify m = Windows <-> four = "FCFB")
  /\ (classify m = Android <-> four = "A1B2")
  /\ (classify m = Unknown <-> four <> "5C1F" /\ four <> "FCFB" /\ four <> "A1B2").
Proof.
  intros four. rewrite classify_by_first_four. fold four.
  unfold os_of_vendor.
  pose proof (startswith_four_iff (ClassifySpec.normalize m) "5" "C" "1" "F") as HA.
  pose proof (startswith_four_iff (ClassifySpec.normalize m) "F" "C" "F" "B") as HW.
  pose proof (startswith_four_iff (ClassifySpec.normalize m) "A" "1" "B" "2") as HD.
  fold four in HA, HW, HD.
  change (String "5" (String "C" (String "1" (String "F" EmptyString)))) with "5C1F" in HA.
  change (String "F" (String "C" (String "F" (String "B" EmptyString)))) with "FCFB" in HW.
  change (String "A" (String "1" (String "B" (String "2" EmptyString)))) with "A1B2" in HD.
  destruct (PyStr.startswith four "5C1F") eqn:EA.
  { assert (E : four = "5C1F") by now apply HA.
    rewrite E. repeat split; intros; try discriminate; try reflexivity.
    destruct H as (H & _). now elim H. }
  assert (NA : four <> "5C1F") by (intros E; apply HA in E; discriminate).
  destruct (PyStr.startswith four "FCFB") eqn:EW.
  { assert (E : four = "FCFB") by now apply HW.
    rewrite E. repeat split; intros; try discriminate; try reflexivity.
    destruct H as (_ & H & _). now elim H. }
  assert (NW : four <> "FCFB") by (intros E; apply HW in E; discriminate).
  destruct (PyStr.startswith four "A1B2") eqn:ED.
  { assert (E : four = "A1B2") by now apply HD.
    rewrite E. repeat split; intros; try discriminate; try reflexivity.
    destruct H as (_ & _ & H). now elim H. }
  assert (ND : four <> "A1B2") by (intros E; apply HD in E; discriminate).
  repeat split; intros; try discriminate; try contradiction; auto.
Qed.

(** ** What a scan keeps and what it replaces *)

Lemma in_placed env k found d :
  In d (placed env k found) ->
  exists d0 p, In d0 found /\ d = place p d0.
Proof.
  revert k; induction found as [|d0 rest IH]; intros k; simpl; [tauto|].
  intros [<- | H].
  - eauto.
  - destruct (IH _ H) as (d1 & p & Hin & ->). eauto.
Qed.

(** X2. The table a scan leaves is built from the replies of that sweep
    alone: what the table held before makes no difference, and every
    device in it carries the IP and the hardware address of one of the
    replies and the guess made from that address. *)
Theorem X2_table_comes_from_latest_sweep env st :
  (forall devs,
      devices (scan_network env (set_devices devs st))
      = devices (scan_network env st))
  /\ (forall d,
        In d (devices (scan_network env st)) ->
        exists r, In r (probe env (subnet_var st))
                  /\ ip d = psrc r /\ mac d = hwsrc r
                  /\ os d = classify (hwsrc r)).
Proof.
  split.
  - intros devs. rewrite !scan_network_devices. reflexivity.
  - intros d Hd. rewrite scan_network_devices in Hd.
    apply in_placed in Hd as (d0 & p & Hin & ->).
    apply in_map_iff in Hin as (r & <- & Hr).
    exists r. repeat split; assumption.
Qed.

Lemma X2_table_comes_from_latest_sweep_witness :
  exists r, In r [mkReply "10.0.0.5" "5c:1f:00:11:22:33"]
            /\ ip new_c = psrc r /\ mac new_c = hwsrc r
            /\ os new_c = classify (hwsrc r).
Proof.
  apply (proj2 (X2_table_comes_from_latest_sweep env_lower_case st_stale) new_c).
  left. reflexivity.
Defined.

(** X3. A reverse lookup that fails costs no device: the host name of
    each device is the resolved name, or the IP when the lookup raised,
    and the IPs, hardware addresses, guesses and coordinates of the table
    are the same whatever the resolver answers. *)
Theorem X3_lookup_failure_falls_back_to_ip env st :
  map host (devices (scan_network env st))
  = map (fun r => match gethostbyaddr env (psrc r) with
                  | Returned name => name
                  | Raised _ => psrc r
                  end) (probe env (subnet_var st))
  /\ forall resolve,
       let env' := mkScanEnv (arping env) resolve (uniform_xy env) in
       map (fun d => (ip d, mac d, os d, xy d)) (devices (scan_network env' st))
       = map (fun d => (ip d, mac d, os d, xy d)) (devices (scan_network env st)).
Proof.
  split.
  - rewrite scan_network_devices, map_placed by reflexivity.
    rewrite map_map. apply map_ext. intros r.
    unfold assemble; simpl. now destruct (gethostbyaddr env (psrc r)).
  - intros resolve env'. rewrite !scan_network_devices.
    change (probe env' (subnet_var st)) with (probe env (subnet_var st)).
    generalize 0. induction (probe env (subnet_var st)) as [|r ans IH]; intros k;
      simpl; [reflexivity|].
    now rewrite IH.
Qed.

(** X4. The Set button does not steer the scan: [scan_network] reads the
    text of the entry and never [DEFAULT_SUBNET], so it finds the same
    devices and shows the same count whether or not [update_subnet] ran
    first, on an accepted or on a refused entry; and it leaves
    [DEFAULT_SUBNET], the entry and the dialogs as they were. *)
Theorem X4_update_subnet_does_not_steer_scan env st :
  devices (scan_network env (update_subnet st)) = devices (scan_network env st)
  /\ info_label (scan_network env (update_subnet st)) = info_label (scan_network env st)
  /\ DEFAULT_SUBNET (scan_network env st) = DEFAULT_SUBNET st
  /\ subnet_var (scan_network env st) = subnet_var st
  /\ dialogs (scan_network env st) = dialogs st.
Proof.
  assert (Hsub : subnet_var (update_subnet st) = subnet_var st).
  { unfold update_subnet.
    now destruct (IPAddress.IPv4Network (PyStr.strip (subnet_var st)) false). }
  rewrite !scan_network_info_label, !scan_network_devices, Hsub.
  repeat split.
Qed.

(** X5. A second scan leaves no trace of the first: the state after two
    scans is the state the second alone would have left.  When the network
    gives the second scan the answers it gave the first, the two tables
    have the same devices in the same order, with the same IP, hardware
    address, host name and guess, and the label is the same; the
    coordinates are those drawn during the second scan, whatever they
    are. *)
Theorem X5_rescan_changes_only_coordinates env st :
  (forall env', scan_network env' (scan_network env st) = scan_network env' st)
  /\ forall draw',
       let env' := mkScanEnv (arping env) (gethostbyaddr env) draw' in
       map (fun d => (ip d, mac d, host d, os d))
           (devices (scan_network env' (scan_network env st)))
       = map (fun d => (ip d, mac d, host d, os d)) (devices (scan_network env st))
       /\ map xy (devices (scan_network env' (scan_network env st)))
          = map (fun j => Some (draw' j))
                (seq 0 (length (devices (scan_network env st))))
       /\ info_label (scan_network env' (scan_network env st))
          = info_label (scan_network env st).
Proof.
  split; [reflexivity|].
  intros draw' env'.
  assert (Hfields : forall e k found,
             map (fun d => (ip d, mac d, host d, os d)) (placed e k found)
             = map (fun d => (ip d, mac d, host d, os d)) found).
  { intros e k found. now apply map_placed. }
  assert (Hxy : forall e k found,
             map xy (placed e k found)
             = map (fun j => Some (uniform_xy e j)) (seq k (length found))).
  { intros e k found. revert k; induction found as [|d rest IH]; intros k;
      simpl; [reflexivity|]. now rewrite IH. }
  rewrite !scan_network_info_label, !scan_network_devices.
  change (subnet_var (scan_network env st)) with (subnet_var st).
  change (probe env' (subnet_var st)) with (probe env (subnet_var st)).
  set (ans := probe env (subnet_var st)).
  assert (Hsame : map (assemble env') ans = map (assemble env) ans) by reflexivity.
  rewrite Hsame, !Hfields, Hxy, !placed_length.
  repeat split.
Qed.

(** ** Coordinates *)

Lemma placed_has_xy env k found :
  forallb has_xy (placed env k found) = true.
Proof.
  revert k; induction found as [|d rest IH]; intros k; simpl; auto.
Qed.

Lemma new_table_has_xy env st0 d :
  In d (new_table env st0) -> has_xy d = true.
Proof.
  unfold new_table. rewrite scan_network_devices.
  intros H. eapply forallb_forall in H; [eassumption | apply placed_has_xy].
Qed.

Lemma firstn_In {A : Type} (k : nat) (l : list A) (x : A) :
  In x (firstn k l) -> In x l.
Proof.
  intros H. apply In_nth_error in H as [i Hi].
  eapply nth_error_In, nth_error_firstn_some, Hi.
Qed.

(** X6. Every device gets its coordinates before it is appended, so under
    every interleaving of a scan with the redraws, if the devices of the
    table had coordinates when the scan began, then all devices of the
    table have them at every instant, and so has every device a redraw
    fetches: [draw_radar] never reads a missing ['x']. *)
Theorem X6_devices_always_have_coordinates env st0 sched :
  forallb has_xy (devices st0) = true ->
  let w := Cycle.run env sched (Cycle.start st0) in
  forallb has_xy (devices (Cycle.shared w)) = true
  /\ forall i drawn,
       Cycle.draw w = dr_iter i drawn \/ Cycle.draw w = dr_done drawn ->
       forallb has_xy drawn = true.
Proof.
  intros Hold w.
  destruct (cycle_inv_run env st0 sched _ (cycle_inv_start env st0))
    as (_ & Htab & Hdraw).
  fold w in Htab, Hdraw.
  assert (Hboth : forall j d,
             nth_error (old_table st0) j = Some d
             \/ nth_error (new_table env st0) j = Some d ->
             has_xy d = true).
  { intros j d [H | H]; apply nth_error_In in H.
    - eapply forallb_forall in Hold; eassumption.
    - eapply new_table_has_xy; eassumption. }
  split.
  - apply forallb_forall. intros d Hd.
    destruct (table_inv_cases _ _ _ _ Htab) as [E | (k & _ & E)]; rewrite E in Hd.
    + eapply forallb_forall in Hold; eassumption.
    + eapply new_table_has_xy, firstn_In, Hd.
  - intros i drawn Hpc. apply forallb_forall. intros d Hd.
    apply In_nth_error in Hd as [j Hj].
    destruct Hpc as [E | E]; rewrite E in Hdraw; simpl in Hdraw.
    + destruct Hdraw as [_ Hfrom]. eapply Hboth, Hfrom, Hj.
    + eapply Hboth, Hdraw, Hj.
Qed.

Lemma X6_devices_always_have_coordinates_witness :
  forallb has_xy
    (devices (Cycle.shared
       (Cycle.run env_two_hosts
          [Cycle.drawer; Cycle.scanner; Cycle.scanner; Cycle.scanner;
           Cycle.scanner; Cycle.drawer]
          (Cycle.start st_two_old)))) = true.
Proof.
  apply (X6_devices_always_have_coordinates env_two_hosts st_two_old
           [Cycle.drawer; Cycle.scanner; Cycle.scanner; Cycle.scanner;
            Cycle.scanner; Cycle.drawer]).
  reflexivity.
Defined.

(** ** A redraw that is not interrupted *)

Lemma draw_fetches env pc (st : State) (rest pre : list Device) (tips : list string) :
  devices st = (pre ++ rest)%list ->
  Cycle.run env (repeat Cycle.drawer (length rest + 1))
            (Cycle.mkWorld (set_tooltips tips st) pc (dr_iter (length pre) pre))
  = Cycle.mkWorld (set_tooltips (tips ++ map tip_text rest) st) pc
                  (dr_done (pre ++ rest)).
Proof.
  revert pre tips; induction rest as [|d rest IH]; intros pre tips Hd.
  - simpl. unfold Cycle.step; simpl.
    assert (Hn : nth_error (devices st) (length pre) = None).
    { apply nth_error_None. rewrite Hd, app_nil_r. lia. }
    rewrite Hn. now rewrite !app_nil_r.
  - cbn [length Nat.add repeat Cycle.run fold_left].
    assert (Hn : nth_error (devices st) (length pre) = Some d).
    { rewrite Hd, nth_error_app2, Nat.sub_diag by lia. reflexivity. }
    unfold Cycle.step at 2;
      cbn [Cycle.scan Cycle.shared Cycle.draw draw_step devices set_tooltips tooltips].
    rewrite Hn.
    specialize (IH (pre ++ [d])%list (tips ++ [tip_text d])%list).
    rewrite length_app in IH; cbn [length] in IH.
    rewrite (Nat.add_1_r (length pre)) in IH.
    unfold Cycle.run in IH.
    change (set_tooltips (tips ++ [tip_text d])
              (set_tooltips tips st))
      with (set_tooltips (tips ++ [tip_text d]) st).
    rewrite IH by (now rewrite <- app_assoc).
    now rewrite <- !app_assoc.
Qed.

(** One whole pass of the loop of [draw_radar], from outside the loop. *)
Lemma draw_pass env pc (st : State) (dpc : draw_pc) :
  dpc = dr_idle \/ (exists drawn, dpc = dr_done drawn) ->
  Cycle.run env (repeat Cycle.drawer (length (devices st) + 2))
            (Cycle.mkWorld st pc dpc)
  = Cycle.mkWorld (set_tooltips (tooltips st ++ map tip_text (devices st)) st)
                  pc (dr_done (devices st)).
Proof.
  intros Hd.
  replace (length (devices st) + 2) with (1 + (length (devices st) + 1)) by lia.
  rewrite repeat_app, run_app.
  assert (H1 : Cycle.run env (repeat Cycle.drawer 1) (Cycle.mkWorld st pc dpc)
               = Cycle.mkWorld (set_tooltips (tooltips st) st) pc
                               (dr_iter (length (@nil Device)) [])).
  { destruct st. destruct Hd as [-> | [drawn ->]]; reflexivity. }
  rewrite H1.
  now rewrite (draw_fetches env pc st (devices st) [] (tooltips st) eq_refl).
Qed.

(** X7. A redraw that no scanner step interrupts fetches the table as it
    is: after as many drawer steps as there are devices, and two more, the
    pass is over, it has drawn exactly the devices of the table in their
    order, and the shared state is the one [draw_radar] computes in one
    go; the scanner has not moved. *)
Theorem X7_uninterrupted_redraw_draws_the_table env ui pc :
  let w := Cycle.run env
             (repeat Cycle.drawer (length (devices (core ui)) + 2))
             (Cycle.mkWorld (core ui) pc dr_idle) in
  Cycle.obtained w = Some (devices (core ui))
  /\ Cycle.shared w = core (draw_radar ui)
  /\ Cycle.scan w = pc.
Proof.
  intros w. unfold w. rewrite draw_pass by now left.
  repeat split.
Qed.

Lemma animate_core ui :
  core (animate ui)
  = set_tooltips (tooltips (core ui) ++ map tip_text (devices (core ui))) (core ui).
Proof. reflexivity. Qed.

Lemma iter_animate_devices n ui :
  devices (core (Nat.iter n animate ui)) = devices (core ui).
Proof.
  induction n as [|n IH]; [reflexivity|].
  rewrite Nat.iter_succ, animate_core. exact IH.
Qed.

(** X8. Tooltips pile up between scans: every frame adds one tooltip per
    device and removes none, so after [n] frames the application holds
    [n] more tooltips for each device of the table; only a scan empties
    the collection. *)
Theorem X8_tooltips_pile_up_between_scans n ui :
  tooltips (core (Nat.iter n animate ui))
  = (tooltips (core ui)
     ++ concat (repeat (map tip_text (devices (core ui))) n))%list
  /\ length (tooltips (core (Nat.iter n animate ui)))
     = length (tooltips (core ui)) + n * length (devices (core ui))
  /\ forall env, tooltips (core (ui_scan_network env (Nat.iter n animate ui))) = [].
Proof.
  assert (H : tooltips (core (Nat.iter n animate ui))
              = (tooltips (core ui)
                 ++ concat (repeat (map tip_text (devices (core ui))) n))%list).
  { induction n as [|n IH]; [now rewrite app_nil_r|].
    rewrite Nat.iter_succ, animate_core. cbn [tooltips set_tooltips].
    rewrite IH, iter_animate_devices, <- app_assoc. f_equal.
    cbn [repeat]. rewrite repeat_cons, concat_app. simpl.
    now rewrite app_nil_r. }
  split; [exact H | split; [|reflexivity]].
  rewrite H, length_app. f_equal. clear H.
  induction n as [|n IH]; [reflexivity|].
  cbn [repeat concat]. rewrite length_app, IH, length_map. reflexivity.
Qed.

(** ** The canvas *)

Lemma in_circle_radii (R r : Z) :
  In r (py_range 100 (R + 1) 100) <-> (100 <= r <= R /\ r mod 100 = 0)%Z.
Proof.
  unfold py_range. cbn [Z.ltb Z.compare].
  replace ((R + 1 - 100 + 100 - 1) / 100)%Z with (R / 100)%Z by (f_equal; lia).
  rewrite in_map_iff. split.
  - intros (i & <- & Hi). apply in_seq in Hi.
    assert (Hq : (Z.of_nat i < R / 100)%Z) by lia.
    split; [|rewrite Z.mod_add by lia; reflexivity].
    Z.div_mod_to_equations. lia.
  - intros [Hr Hm]. exists (Z.to_nat (r / 100 - 1)). split.
    + rewrite Z2Nat.id by (Z.div_mod_to_equations; lia).
      Z.div_mod_to_equations. lia.
    + apply in_seq. Z.div_mod_to_equations. lia.
Qed.

(** X9. Each frame draws the canvas afresh, whatever was on it: one
    circle for every multiple of 100 from 100 up to the radius and no
    other (none when the radius is under 100), then the scan line at the
    current angle, then one dot per device in table order. *)
Theorem X9_canvas_of_a_frame ui :
  (forall r, In (circle r) (canvas (draw_radar ui))
             <-> (100 <= r <= radius ui /\ r mod 100 = 0)%Z)
  /\ length (canvas (draw_radar ui))
     = Z.to_nat (radius ui / 100) + 1 + length (devices (core ui))
  /\ skipn (Z.to_nat (radius ui / 100)) (canvas (draw_radar ui))
     = (scan_line (scan_angle ui) :: map dot_of (devices (core ui)))
  /\ forall old, canvas (draw_radar (set_canvas old ui)) = canvas (draw_radar ui).
Proof.
  assert (Hlen : length (map circle (py_range 100 (radius ui + 1) 100))
                 = Z.to_nat (radius ui / 100)).
  { rewrite length_map. unfold py_range. cbn [Z.ltb Z.compare].
    rewrite length_map, length_seq. f_equal. f_equal. lia. }
  split; [|split; [|split]].
  - intros r. rewrite <- in_circle_radii.
    unfold draw_radar; cbn [canvas set_canvas].
    rewrite !in_app_iff, in_map_iff. split.
    + intros [(r' & E & Hr') | [[E | []] | Hd]].
      * now inversion E; subst.
      * discriminate.
      * apply in_map_iff in Hd as (d & E & _). discriminate.
    + intros Hr. left. eauto.
  - unfold draw_radar; cbn [canvas set_canvas].
    rewrite !length_app, Hlen, length_map. simpl. lia.
  - unfold draw_radar; cbn [canvas set_canvas].
    rewrite <- Hlen, skipn_app, skipn_all, Nat.sub_diag. reflexivity.
  - reflexivity.
Qed.

(** ** The scan loop left to itself *)

Lemma loop_step_flag_up envs w :
  running (Loop.shared w) = true ->
  Loop.loop w <> Loop.lp_exit ->
  running (Loop.shared (Loop.loop_step envs w)) = true
  /\ Loop.loop (Loop.loop_step envs w) <> Loop.lp_exit
  /\ destroyed (Loop.shared (Loop.loop_step envs w)) = destroyed (Loop.shared w).
Proof.
  intros Hr Hl. unfold Loop.loop_step.
  destruct (Loop.loop w) as [|pc| |]; simpl.
  - rewrite Hr. simpl. repeat split; [assumption | discriminate].
  - destruct pc as [|ans|found|found k| |]; simpl;
      try (repeat split; [assumption | discriminate]).
    destruct (nth_error found k); simpl; repeat split; try assumption; discriminate.
  - repeat split; [assumption | discriminate].
  - now elim Hl.
Qed.

(** X10. Nothing but [on_close] ends the scan loop: as long as only the
    scanner thread runs, the running flag stays set, the window stays as
    it was and the loop is never left, however many steps it takes. *)
Theorem X10_loop_runs_until_closed envs st n :
  let w := Loop.run envs (repeat Loop.ev_scanner n) (Loop.start st) in
  running (Loop.shared w) = true
  /\ Loop.loop w <> Loop.lp_exit
  /\ destroyed (Loop.shared w) = destroyed st.
Proof.
  cbv zeta.
  assert (H : forall w,
             running (Loop.shared w) = true ->
             Loop.loop w <> Loop.lp_exit ->
             let w' := Loop.run envs (repeat Loop.ev_scanner n) w in
             running (Loop.shared w') = true
             /\ Loop.loop w' <> Loop.lp_exit
             /\ destroyed (Loop.shared w') = destroyed (Loop.shared w)).
  { induction n as [|n IH]; intros w Hr Hl; [cbn; auto|].
    cbn [repeat Loop.run fold_left Loop.step].
    destruct (loop_step_flag_up envs w Hr Hl) as (Hr' & Hl' & Hd').
    destruct (IH _ Hr' Hl') as (H1 & H2 & H3).
    repeat split; try assumption. unfold Loop.run in H3. congruence. }
  apply (H (Loop.start st)); [reflexivity | discriminate].
Qed.

Lemma loop_run_app envs (e1 e2 : list Loop.event) (w : Loop.World) :
  Loop.run envs (e1 ++ e2) w = Loop.run envs e2 (Loop.run envs e1 w).
Proof. apply fold_left_app. Qed.

Lemma loop_append_steps envs n (found rest pre : list Device) (st : State) :
  found = (pre ++ rest)%list ->
  Loop.run envs (repeat Loop.ev_scanner (length rest + 1))
           (Loop.mkWorld st (Loop.lp_scan (pc_append found (length pre))) n)
  = Loop.mkWorld
      (set_devices (append_found (envs n) (length pre) rest (devices st)) st)
      (Loop.lp_scan pc_label) n.
Proof.
  revert pre st; induction rest as [|d rest IH]; intros pre st Hf.
  - simpl. unfold Loop.loop_step; simpl.
    assert (Hn : nth_error found (length pre) = None).
    { apply nth_error_None. subst found. rewrite app_nil_r. lia. }
    rewrite Hn. now destruct st.
  - cbn [length Nat.add repeat Loop.run fold_left].
    assert (Hn : nth_error found (length pre) = Some d).
    { subst found. rewrite nth_error_app2, Nat.sub_diag by lia. reflexivity. }
    unfold Loop.step at 2, Loop.loop_step;
      cbn [Loop.loop Loop.shared Loop.scans scan_step].
    rewrite Hn.
    specialize (IH (pre ++ [d])%list
                   (set_devices (devices st ++ [place (uniform_xy (envs n) (length pre)) d]) st)).
    rewrite length_app in IH; cbn [length] in IH.
    rewrite (Nat.add_1_r (length pre)) in IH.
    unfold Loop.run in IH. rewrite IH by (now rewrite <- app_assoc).
    reflexivity.
Qed.

(** X11. One turn of the scan loop is one call of [scan_network]: from
    the loop test with the flag set, the scanner thread alone comes back
    to the loop test after the sweep, the assembly, the clear, one append
    per reply, the label and the sleep, and the state is then the one
    [scan_network] computes from the answers of that turn. *)
Theorem X11_one_turn_is_one_scan envs w :
  Loop.loop w = Loop.lp_test ->
  running (Loop.shared w) = true ->
  let env := envs (S (Loop.scans w)) in
  Loop.run envs
    (repeat Loop.ev_scanner (length (probe env (subnet_var (Loop.shared w))) + 8)) w
  = Loop.mkWorld (scan_network env (Loop.shared w)) Loop.lp_test (S (Loop.scans w)).
Proof.
  destruct w as [st pc n]; cbn [Loop.loop Loop.shared Loop.scans].
  intros -> Hr. set (env := envs (S n)).
  set (found := map (assemble env) (probe env (subnet_var st))).
  replace (length (probe env (subnet_var st)) + 8)
    with (4 + ((length found + 1) + 3))
    by (unfold found; rewrite length_map; lia).
  rewrite (repeat_app _ 4), (repeat_app _ (length found + 1) 3), !loop_run_app.
  assert (H4 : Loop.run envs (repeat Loop.ev_scanner 4)
                 (Loop.mkWorld st Loop.lp_test n)
               = Loop.mkWorld
                   (set_troll_btn_enabled false (set_tooltips [] (set_devices [] st)))
                   (Loop.lp_scan (pc_append found (length (@nil Device)))) (S n)).
  { cbn [repeat Loop.run fold_left].
    unfold Loop.step at 4, Loop.loop_step; cbn [Loop.loop Loop.shared Loop.scans].
    rewrite Hr. reflexivity. }
  rewrite H4.
  rewrite (loop_append_steps envs (S n) found found [] _ eq_refl).
  reflexivity.
Qed.

Lemma X11_one_turn_is_one_scan_witness :
  devices (Loop.shared
             (Loop.run (fun _ => env_two_hosts)
                (repeat Loop.ev_scanner 10) (Loop.start st_two_old)))
  = [new_c; new_d].
Proof.
  change 10 with
    (length (probe env_two_hosts (subnet_var (Loop.shared (Loop.start st_two_old)))) + 8).
  rewrite (X11_one_turn_is_one_scan (fun _ => env_two_hosts)
             (Loop.start st_two_old) eq_refl eq_refl).
  reflexivity.
Defined.

(** ** The scan line *)

Lemma scan_angle_animate ui :
  scan_angle (animate ui) = ((scan_angle ui + 3) mod 360)%Z.
Proof. reflexivity. Qed.

(** X12. The scan line turns three degrees a frame and stays on the dial:
    after [n + 1] frames the angle is the starting angle plus three times
    the number of frames, modulo 360, hence from 0 to 359 whatever the
    starting value, and 120 frames later it is the same again. *)
Theorem X12_scan_angle_sweeps ui n :
  let a := scan_angle (Nat.iter (S n) animate ui) in
  (a = (scan_angle ui + 3 * Z.of_nat (S n)) mod 360
   /\ 0 <= a < 360
   /\ scan_angle (Nat.iter (S n + 120) animate ui) = a)%Z.
Proof.
  assert (H : forall m,
             scan_angle (Nat.iter (S m) animate ui)
             = ((scan_angle ui + 3 * Z.of_nat (S m)) mod 360)%Z).
  { induction m as [|m IH].
    - cbn [Nat.iter]. rewrite scan_angle_animate. reflexivity.
    - rewrite Nat.iter_succ, scan_angle_animate, IH.
      rewrite Z.add_mod_idemp_l by lia. f_equal. lia. }
  cbv zeta. split; [apply H | split].
  - rewrite H. apply Z.mod_pos_bound. lia.
  - replace (S n + 120) with (S (n + 120)) by lia.
    rewrite !H.
    replace (scan_angle ui + 3 * Z.of_nat (S (n + 120)))%Z
      with (scan_angle ui + 3 * Z.of_nat (S n) + 1 * 360)%Z by lia.
    apply Z.mod_add. lia.
Qed.

(** ** Tooltips *)

(** What every tooltip satisfies. *)
Lemma tooltip_inv_handle tt e :
  (ToolTip.alive tt = match ToolTip.tip tt with Some _ => 1 | None => 0 end
   /\ match ToolTip.tip tt with
      | Some w => ToolTip.label w = ToolTip.text tt /\ ToolTip.text tt <> EmptyString
      | None => True
      end) ->
  let tt' := ToolTip.handle tt e in
  ToolTip.text tt' = ToolTip.text tt
  /\ ToolTip.alive tt' = match ToolTip.tip tt' with Some _ => 1 | None => 0 end
  /\ match ToolTip.tip tt' with
     | Some w => ToolTip.label w = ToolTip.text tt' /\ ToolTip.text tt' <> EmptyString
     | None => True
     end.
Proof.
  destruct tt as [txt [w|] n]; simpl; intros [Ha Hw]; destruct e as [x y|]; simpl.
  - auto.
  - subst n. auto.
  - destruct txt; simpl; subst n; repeat split; auto. discriminate.
  - auto.
Qed.

(** X13. A tooltip never has two windows up.  Whatever the pointer does
    to its canvas item, the windows the tooltip has made and not destroyed
    number one when [tip] is set and none otherwise; a window that is up
    carries the text of the tooltip; a tooltip with an empty text never
    opens a window; and entering again while the window is up leaves it
    where it first appeared. *)
Theorem X13_tooltip_has_at_most_one_window (txt : string) (evs : list ToolTip.event) :
  let tt := ToolTip.run evs (ToolTip.init txt) in
  ToolTip.text tt = txt
  /\ ToolTip.alive tt = match ToolTip.tip tt with Some _ => 1 | None => 0 end
  /\ match ToolTip.tip tt with
     | Some w => ToolTip.label w = txt /\ txt <> EmptyString
     | None => True
     end
  /\ forall x y x' y',
       ToolTip.show x' y' (ToolTip.show x y tt) = ToolTip.show x y tt.
Proof.
  cbv zeta.
  assert (H : forall tt0,
             (ToolTip.alive tt0 = match ToolTip.tip tt0 with Some _ => 1 | None => 0 end
              /\ match ToolTip.tip tt0 with
                 | Some w => ToolTip.label w = ToolTip.text tt0
                             /\ ToolTip.text tt0 <> EmptyString
                 | None => True
                 end) ->
             let tt := ToolTip.run evs tt0 in
             ToolTip.text tt = ToolTip.text tt0
             /\ ToolTip.alive tt = match ToolTip.tip tt with Some _ => 1 | None => 0 end
             /\ match ToolTip.tip tt with
                | Some w => ToolTip.label w = ToolTip.text tt
                            /\ ToolTip.text tt <> EmptyString
                | None => True
                end).
  { induction evs as [|e evs IH]; intros tt0 H0; [cbn; tauto|].
    cbn [ToolTip.run fold_left].
    destruct (tooltip_inv_handle tt0 e H0) as (Ht & Ha & Hw).
    destruct (IH (ToolTip.handle tt0 e) (conj Ha Hw)) as (Ht' & Ha' & Hw').
    unfold ToolTip.run in *. repeat split; try assumption. congruence. }
  destruct (H (ToolTip.init txt) (conj eq_refl I)) as (Ht & Ha & Hw).
  cbn [ToolTip.init ToolTip.text] in Ht.
  repeat split; try assumption.
  - rewrite Ht in Hw. exact Hw.
  - intros x y x' y'.
    destruct (ToolTip.run evs (ToolTip.init txt)) as [t0 [w|] n]; [reflexivity|].
    destruct t0; reflexivity.
Qed.

(** ** The troll message *)

Lemma string_app_assoc (s t u : string) :
  ((s ++ t) ++ u = s ++ (t ++ u))%string.
Proof.
  induction s as [|c s IH]; simpl; [reflexivity | now rewrite IH].
Qed.

(** X14. [troll_selected] does nothing without a selection.  With one, and
    a socket, it hands one datagram per port of [TROLL_PORTS] to the
    network, in the order of the list and all to the IP of the selected
    device with the text of the message entry, whether or not earlier
    sends failed; it then shows exactly one report and leaves the table
    and the selection alone.  When the socket cannot be made the error
    leaves the method. *)
Theorem X14_troll_tries_every_port env ui :
  match selected ui, udp_socket env with
  | None, _ => troll_selected env ui = Returned ui
  | Some sel, Raised e => troll_selected env ui = Raised e
  | Some sel, Returned _ =>
      exists ui',
        troll_selected env ui = Returned ui'
        /\ datagrams ui'
           = (datagrams ui
              ++ [ (msg_entry ui, ip sel, 1900%Z); (msg_entry ui, ip sel, 5353%Z);
                   (msg_entry ui, ip sel, 5555%Z); (msg_entry ui, ip sel, 137%Z) ])%list
        /\ (exists report,
               dialogs (core ui') = (dialogs (core ui) ++ [showinfo "Troll Report" report])%list)
        /\ devices (core ui') = devices (core ui)
        /\ selected ui' = Some sel
  end.
Proof.
  unfold troll_selected.
  destruct (selected ui) as [sel|] eqn:Es; [|reflexivity].
  destruct (udp_socket env) as [[]|e]; [|reflexivity].
  cbn [bind]. eexists. split; [reflexivity|].
  cbn. rewrite Es. repeat split. eexists. reflexivity.
Qed.

(** X15. The report sorts the ports by what happened to them: the text of
    a port of [TROLL_PORTS] stands among the succeeded ones exactly when
    its send returned and among the failed ones exactly when it raised,
    so each port is reported once; and when every send returns the report
    is the header followed by the one line "Succeeded on ports: 1900,
    5353, 5555, 137". *)
Theorem X15_troll_report_sorts_the_ports env (sel : Device) (msg : string) :
  let results := troll_results env msg (ip sel) in
  (forall p, In p TROLL_PORTS ->
     (In (PyStr.str_Z p) (success_ports results)
        <-> returns (sendto env msg (ip sel) p) = true)
     /\ (In (PyStr.str_Z p) (fail_ports results)
           <-> returns (sendto env msg (ip sel) p) = false))
  /\ length (success_ports results) + length (fail_ports results) = 4
  /\ ((forall p, In p TROLL_PORTS -> returns (sendto env msg (ip sel) p) = true) ->
      troll_report sel results
      = "Troll sent to " ++ host sel ++ " (" ++ ip sel ++ ")" ++ newline
        ++ "Succeeded on ports: 1900, 5353, 5555, 137" ++ newline).
Proof.
  cbv zeta. unfold troll_report, troll_results, success_ports, fail_ports, TROLL_PORTS.
  cbn [map filter fst snd In].
  destruct (sendto env msg (ip sel) 1900%Z) as [[]|e1] eqn:E1;
    destruct (sendto env msg (ip sel) 5353%Z) as [[]|e2] eqn:E2;
    destruct (sendto env msg (ip sel) 5555%Z) as [[]|e3] eqn:E3;
    destruct (sendto env msg (ip sel) 137%Z) as [[]|e4] eqn:E4;
    cbn [returns negb map filter fst snd length Nat.add].
  all: split; [|split; [reflexivity|]].
  all: try (intros p [<- | [<- | [<- | [<- | []]]]];
            rewrite ?E1, ?E2, ?E3, ?E4; cbn [returns];
            vm_compute; intuition congruence).
  all: try (intros Hall;
            first [ specialize (Hall 1900%Z (or_introl eq_refl));
                    rewrite E1 in Hall; discriminate
                  | specialize (Hall 5353%Z (or_intror (or_introl eq_refl)));
                    rewrite E2 in Hall; discriminate
                  | specialize (Hall 5555%Z (or_intror (or_intror (or_introl eq_refl))));
                    rewrite E3 in Hall; discriminate
                  | specialize (Hall 137%Z
                      (or_intror (or_intror (or_intror (or_introl eq_refl)))));
                    rewrite E4 in Hall; discriminate ]).
  intros _. cbn [PyStr.join]. rewrite !string_app_assoc. reflexivity.
Qed.

(** X16. A scan does not forget the selection: after [on_select] and a
    scan, the Troll button is disabled again but [self.selected] is still
    the device that was clicked, in or out of the new table, and
    [troll_selected] still sends to its IP. *)
Theorem X16_selection_survives_scan env tenv dev ui :
  let ui' := ui_scan_network env (on_select dev ui) in
  troll_btn_enabled (core (on_select dev ui)) = true
  /\ troll_btn_enabled (core ui') = false
  /\ selected ui' = Some dev
  /\ match udp_socket tenv with
     | Returned _ =>
         outcome_map datagrams (troll_selected tenv ui')
         = Returned (datagrams ui
                     ++ map (fun p => (msg_entry ui, ip dev, p)) TROLL_PORTS)%list
     | Raised e => troll_selected tenv ui' = Raised e
     end.
Proof.
  cbv zeta. repeat split.
  unfold troll_selected. cbn [selected ui_scan_network on_select set_core set_selected].
  destruct (udp_socket tenv) as [[]|e]; reflexivity.
Qed.

(** ** The default subnet *)

(** The value of [get_local_subnet] is always of the form b1.b2.b3.0/24;
    the bytes are 127, 0, 0 when the local address could not be had. *)
Lemma get_local_subnet_form (c : outcome unit) (g : outcome in_addr) :
  exists b1 b2 b3,
    get_local_subnet (mkSocketEnv (Returned tt) c g)
    = Returned (inet_ntoa (b1, b2, b3, x00%byte) ++ "/24").
Proof.
  unfold get_local_subnet; cbn [socket_socket connect getsockname bind].
  destruct c as [[]|e]; [destruct g as [[[[b1 b2] b3] b4]|e]|]; cbn [catch bind].
  2: exists x7f%byte, x00%byte, x00%byte; reflexivity.
  2: exists x7f%byte, x00%byte, x00%byte; reflexivity.
  exists b1, b2, b3.
  unfold inet_ntoa; cbn [map].
  rewrite (network24_of_dotted _ _ _ _ _ _ _ _
             (octet_text_of_byte b1) (octet_text_of_byte b2)
             (octet_text_of_byte b3) (octet_text_of_byte b4)).
  cbn [bind]. f_equal.
  rewrite str_network24 by apply byte_range.
  unfold PyStr.str_Z. now rewrite !Nat2Z.id.
Qed.

Lemma network_text_round_trip (b1 b2 b3 : byte) :
  outcome_map IPAddress.str
    (IPAddress.IPv4Network (inet_ntoa (b1, b2, b3, x00%byte) ++ "/24") false)
  = Returned (inet_ntoa (b1, b2, b3, x00%byte) ++ "/24").
Proof.
  unfold inet_ntoa; cbn [map].
  rewrite (network24_of_dotted _ _ _ _ _ _ _ _
             (octet_text_of_byte b1) (octet_text_of_byte b2)
             (octet_text_of_byte b3) (octet_text_of_byte x00%byte)).
  cbn [outcome_map]. f_equal.
  change (Z.of_nat (Byte.to_nat "000"%byte)) with 0%Z.
  rewrite str_network24 by apply byte_range.
  unfold PyStr.str_Z. now rewrite !Nat2Z.id.
Qed.

Lemma rstrip_ends_nonspace (s : string) (c : ascii) :
  PyStr.isspace c = false ->
  PyStr.rstrip (s ++ String c EmptyString) = (s ++ String c EmptyString)%string.
Proof.
  intros Hc. induction s as [|a s IH]; simpl.
  - now rewrite Hc.
  - rewrite IH. now destruct (s ++ String c EmptyString)%string eqn:E; [destruct s|].
Qed.

Lemma byte_text_starts_nonspace (b : byte) :
  exists c t, PyStr.str_nat (Byte.to_nat b) = String c t /\ PyStr.isspace c = false.
Proof.
  destruct b; do 2 eexists; (split; [vm_compute; reflexivity | reflexivity]).
Qed.

(** The text b1.b2.b3.0/24 has no white space to strip. *)
Lemma strip_network_text (b1 b2 b3 : byte) :
  PyStr.strip (inet_ntoa (b1, b2, b3, x00%byte) ++ "/24")
  = (inet_ntoa (b1, b2, b3, x00%byte) ++ "/24")%string.
Proof.
  unfold PyStr.strip.
  assert (Hl : PyStr.lstrip (inet_ntoa (b1, b2, b3, x00%byte) ++ "/24")
               = (inet_ntoa (b1, b2, b3, x00%byte) ++ "/24")%string).
  { unfold inet_ntoa; cbn [map PyStr.join].
    destruct (byte_text_starts_nonspace b1) as (c & t & -> & Hc).
    simpl. now rewrite Hc. }
  rewrite Hl.
  change "/24" with ("/2" ++ String "4" EmptyString)%string.
  rewrite <- string_app_assoc.
  now apply rstrip_ends_nonspace.
Qed.

(** X17. The subnet found at start-up is in the form the validation
    keeps: parsing it as [update_subnet] does and printing the network
    gives the same text back, and pressing Set on an entry that holds it
    is accepted and stores that very text in [DEFAULT_SUBNET]. *)
Theorem X17_default_subnet_is_a_fixed_point (c : outcome unit) (g : outcome in_addr) :
  exists s,
    get_local_subnet (mkSocketEnv (Returned tt) c g) = Returned s
    /\ outcome_map IPAddress.str (IPAddress.IPv4Network s false) = Returned s
    /\ forall st,
         subnet_var st = s ->
         update_subnet st = set_info_label "Subnet set" (set_DEFAULT_SUBNET s st).
Proof.
  destruct (get_local_subnet_form c g) as (b1 & b2 & b3 & Hs).
  eexists. split; [exact Hs | split; [apply network_text_round_trip|]].
  intros st Hst. unfold update_subnet.
  rewrite Hst, strip_network_text.
  pose proof (network_text_round_trip b1 b2 b3) as Hrt.
  destruct (IPAddress.IPv4Network (inet_ntoa (b1, b2, b3, x00%byte) ++ "/24") false);
    [reflexivity | discriminate].
Qed.

Lemma X17_default_subnet_is_a_fixed_point_witness :
  exists s,
    get_local_subnet env_no_route = Returned s
    /\ DEFAULT_SUBNET (update_subnet (st_typed s)) = s.
Proof.
  destruct (X17_default_subnet_is_a_fixed_point
              (Raised (OSError "Network is unreachable"))
              (Raised (OSError "Transport endpoint is not connected")))
    as (s & Hs & _ & Hset).
  exists s. split; [exact Hs|].
  now rewrite (Hset (st_typed s) eq_refl).
Defined.

(** ** Start-up *)

(** X18. When the socket can be made, start-up comes through: the entry
    and [DEFAULT_SUBNET] both hold the subnet [get_local_subnet] found,
    the first sweep has been made over that subnet before the scanner
    thread exists, every device found has its coordinates and its tooltip,
    nothing is selected, the Troll button is disabled, the flag is set and
    the first frame has turned the scan line to 3 degrees.  When the
    socket cannot be made, no application is built. *)
Theorem X18_start_up (c : outcome unit) (g : outcome in_addr)
        (width height : Z) (env : ScanEnv) :
  (exists s ui,
      get_local_subnet (mkSocketEnv (Returned tt) c g) = Returned s
      /\ main (mkSocketEnv (Returned tt) c g) width height env = Returned ui
      /\ DEFAULT_SUBNET (core ui) = s
      /\ subnet_var (core ui) = s
      /\ map (fun d => (ip d, mac d)) (devices (core ui))
         = map (fun r => (psrc r, hwsrc r)) (probe env s)
      /\ forallb has_xy (devices (core ui)) = true
      /\ tooltips (core ui) = map tip_text (devices (core ui))
      /\ selected ui = None
      /\ troll_btn_enabled (core ui) = false
      /\ running (core ui) = true
      /\ scan_angle ui = 3%Z
      /\ radius ui = (Z.min (width / 2) (height / 2) - 100)%Z)
  /\ forall e, main (mkSocketEnv (Raised e) c g) width height env = Raised e.
Proof.
  split; [|reflexivity].
  destruct (get_local_subnet_form c g) as (b1 & b2 & b3 & Hs).
  unfold main. rewrite Hs. cbn [bind].
  do 2 eexists. split; [reflexivity | split; [reflexivity|]].
  set (s := (inet_ntoa (b1, b2, b3, x00%byte) ++ "/24")%string).
  unfold init, animate, draw_radar, ui_scan_network.
  cbn [core set_core set_canvas set_scan_angle selected scan_angle radius fst snd
       DEFAULT_SUBNET subnet_var tooltips devices troll_btn_enabled running
       set_tooltips set_running].
  rewrite scan_network_devices.
  cbn [subnet_var].
  repeat split.
  - rewrite map_placed by reflexivity. now rewrite map_map.
  - apply placed_has_xy.
Qed.

(** ** The injected script *)

Lemma replace_absent (old new s : string) :
  Inject.contains_sub old s = false -> Inject.replace old new s = s.
Proof.
  unfold Inject.replace.
  induction s as [|c s IH]; [reflexivity|].
  cbn [Inject.contains_sub Inject.replace_from]. intros H.
  apply orb_false_iff in H as [Hs Hc].
  rewrite Hs. f_equal. now apply IH.
Qed.

Lemma startswith_nil (s : string) : PyStr.startswith s EmptyString = true.
Proof. now destruct s. Qed.

(** No occurrence of the closing tag can begin in [p] and end in a tag
    put after it: the tag has a single left angle bracket. *)
Lemma body_tag_no_overlap (c : ascii) (p tail : string) :
  PyStr.startswith (String c p ++ "</body>" ++ tail) "</body>" = true ->
  PyStr.startswith (String c p) "</body>" = true.
Proof.
  destruct p as [|a1 [|a2 [|a3 [|a4 [|a5 [|a6 p]]]]]];
    cbn [PyStr.startswith String.append]; rewrite ?startswith_nil; intros H;
    try exact H;
    repeat (let H' := fresh in apply andb_true_iff in H; destruct H as [H' H]);
    simpl in *; discriminate.
Qed.

Lemma replace_first_body_tag (new page tail : string) :
  Inject.contains_sub "</body>" page = false ->
  Inject.replace "</body>" new (page ++ "</body>" ++ tail)
  = (page ++ new ++ Inject.replace "</body>" new tail)%string.
Proof.
  unfold Inject.replace.
  induction page as [|c page IH]; intros H.
  - assert (Hs : PyStr.startswith (String "<" ("/body>" ++ tail)) "</body>" = true)
      by (simpl; apply startswith_nil).
    change (EmptyString ++ "</body>" ++ tail)%string
      with (String "<" ("/body>" ++ tail))%string in *.
    cbn [Inject.replace_from]. rewrite Hs. reflexivity.
  - cbn [Inject.contains_sub] in H. apply orb_false_iff in H as [Hs Hc].
    change ((String c page ++ "</body>" ++ tail)%string)
      with (String c (page ++ "</body>" ++ tail)%string).
    cbn [Inject.replace_from].
    destruct (PyStr.startswith (String c (page ++ "</body>" ++ tail)) "</body>") eqn:E.
    + apply (body_tag_no_overlap c page tail) in E. congruence.
    + simpl. f_equal. now apply IH.
Qed.

(** X19. [response] leaves alone a response whose content type does not
    mention text/html, and an HTML body without a closing body tag.  In an
    HTML body it puts the script before the first closing body tag and
    treats what follows that tag in the same way, so that every closing
    body tag gets the script in front of it. *)
Theorem X19_script_goes_before_each_closing_body_tag :
  (forall r,
      Inject.contains_sub "text/html"
        (match Inject.content_type r with Some v => v | None => EmptyString end) = false ->
      Inject.response r = r)
  /\ (forall r,
        Inject.contains_sub "</body>" (Inject.text r) = false ->
        Inject.text (Inject.response r) = Inject.text r)
  /\ (forall ct page tail,
        Inject.contains_sub "text/html" ct = true ->
        Inject.contains_sub "</body>" page = false ->
        Inject.text (Inject.response
                       (Inject.mkResponse (Some ct) (page ++ "</body>" ++ tail)))
        = (page ++ Inject.injection ++ "</body>"
           ++ Inject.text (Inject.response (Inject.mkResponse (Some ct) tail)))%string).
Proof.
  split; [|split].
  - intros r H. unfold Inject.response. now rewrite H.
  - intros r H. unfold Inject.response.
    destruct (Inject.contains_sub "text/html" _); [|reflexivity].
    cbn [Inject.text]. now apply replace_absent.
  - intros ct page tail Hct Hpage. unfold Inject.response.
    cbn [Inject.content_type Inject.text]. rewrite Hct. cbn [Inject.text].
    rewrite replace_first_body_tag by assumption.
    now rewrite string_app_assoc.
Qed.

Lemma X19_script_goes_before_each_closing_body_tag_witness :
  Inject.text
    (Inject.response
       (Inject.mkResponse (Some "text/html; charset=utf-8")
          "<html><body><p>hi</p></body></html>"))
  = ("<html><body><p>hi</p>" ++ Inject.injection ++ "</body></html>")%string.
Proof.
  change "<html><body><p>hi</p></body></html>"
    with ("<html><body><p>hi</p>" ++ "</body>" ++ "</html>")%string.
  rewrite (proj2 (proj2 X19_script_goes_before_each_closing_body_tag)
             "text/html; charset=utf-8" "<html><body><p>hi</p>" "</html>"
             eq_refl eq_refl).
  reflexivity.
Defined.

(** ** Pressing Set again *)

Lemma update_subnet_refused_iter st n :
  valid_cidr (PyStr.strip (subnet_var st)) = false ->
  DEFAULT_SUBNET (Nat.iter n update_subnet st) = DEFAULT_SUBNET st
  /\ subnet_var (Nat.iter n update_subnet st) = subnet_var st
  /\ length (dialogs (Nat.iter n update_subnet st)) = length (dialogs st) + n.
Proof.
  intros Hbad. induction n as [|n (IH1 & IH2 & IH3)]; [cbn; auto|].
  rewrite Nat.iter_succ. unfold update_subnet at 1 3 5.
  rewrite IH2. unfold valid_cidr in Hbad.
  destruct (IPAddress.IPv4Network (PyStr.strip (subnet_var st)) false) as [net|e];
    [discriminate|].
  cbn [DEFAULT_SUBNET subnet_var dialogs set_dialogs].
  rewrite length_app, IH3. cbn [length]. repeat split; try assumption. lia.
Qed.

(** X20. Pressing Set twice on an accepted entry is the same as pressing
    it once.  On a refused entry every press shows one more error box and
    none of them changes [DEFAULT_SUBNET] or the entry. *)
Theorem X20_pressing_set_again st :
  (valid_cidr (PyStr.strip (subnet_var st)) = true ->
   update_subnet (update_subnet st) = update_subnet st)
  /\ (valid_cidr (PyStr.strip (subnet_var st)) = false ->
      forall n,
        DEFAULT_SUBNET (Nat.iter n update_subnet st) = DEFAULT_SUBNET st
        /\ subnet_var (Nat.iter n update_subnet st) = subnet_var st
        /\ length (dialogs (Nat.iter n update_subnet st)) = length (dialogs st) + n).
Proof.
  split.
  - unfold valid_cidr. intros Hok.
    assert (E : update_subnet st
                = set_info_label "Subnet set"
                    (set_DEFAULT_SUBNET (PyStr.strip (subnet_var st)) st)).
    { unfold update_subnet.
      destruct (IPAddress.IPv4Network (PyStr.strip (subnet_var st)) false);
        [reflexivity | discriminate]. }
    rewrite E. unfold update_subnet. cbn [subnet_var set_info_label set_DEFAULT_SUBNET].
    destruct (IPAddress.IPv4Network (PyStr.strip (subnet_var st)) false);
      [reflexivity | discriminate].
  - intros Hbad n. now apply update_subnet_refused_iter.
Qed.

Lemma X20_pressing_set_again_witness :
  length (dialogs (Nat.iter 3 update_subnet (st_typed "not-an-ip"))) = 3
  /\ DEFAULT_SUBNET (Nat.iter 3 update_subnet (st_typed "not-an-ip")) = "10.0.0.0/24".
Proof.
  destruct (proj2 (X20_pressing_set_again (st_typed "not-an-ip")) eq_refl 3)
    as (Hd & _ & Hl).
  split; [exact Hl | exact Hd].
Defined.

(** ** What the methods leave alone *)

Lemma call_devices ui m :
  is_scan m = false -> devices (core (call ui m)) = devices (core ui).
Proof.
  destruct m; try discriminate; intros _; cbn [call]; try reflexivity.
  - unfold ui_update_subnet, update_subnet; cbn [core set_core].
    now destruct (IPAddress.IPv4Network _ _).
  - unfold troll_selected.
    destruct (selected ui); [|reflexivity].
    destruct (udp_socket env) as [[]|e]; reflexivity.
Qed.

Lemma call_closed ui m :
  running (core ui) = false /\ destroyed (core ui) = true ->
  running (core (call ui m)) = false /\ destroyed (core (call ui m)) = true.
Proof.
  intros [Hr Hd]. destruct m; cbn [call]; try (split; assumption).
  - unfold ui_update_subnet, update_subnet; cbn [core set_core].
    destruct (IPAddress.IPv4Network _ _); split; assumption.
  - split; reflexivity.
  - unfold troll_selected.
    destruct (selected ui); [|split; assumption].
    destruct (udp_socket env) as [[]|e]; split; assumption.
Qed.

(** X21. Only a scan changes the device table: after any sequence of
    calls of the other methods (Set, Escape, closing, frames, clicks, the
    Troll button, failed or not) the table is what it was. *)
Theorem X21_only_scans_change_the_table (ms : list method) (ui : Ui) :
  forallb (fun m => negb (is_scan m)) ms = true ->
  devices (core (calls ms ui)) = devices (core ui).
Proof.
  revert ui; induction ms as [|m ms IH]; intros ui H; [reflexivity|].
  cbn [forallb] in H. apply andb_true_iff in H as [Hm Hms].
  cbn [calls fold_left]. unfold calls in IH. rewrite IH by assumption.
  apply call_devices. now destruct (is_scan m).
Qed.

Lemma X21_only_scans_change_the_table_witness :
  devices (core (calls [m_on_select old_b; m_troll_selected env_some_refused;
                        m_animate; m_update_subnet; m_on_close] ui_idle))
  = [old_a; old_b].
Proof.
  apply (X21_only_scans_change_the_table
           [m_on_select old_b; m_troll_selected env_some_refused;
            m_animate; m_update_subnet; m_on_close] ui_idle).
  reflexivity.
Defined.

Lemma calls_closed ms ui :
  running (core ui) = false /\ destroyed (core ui) = true ->
  running (core (calls ms ui)) = false /\ destroyed (core (calls ms ui)) = true.
Proof.
  revert ui; induction ms as [|m ms IH]; intros ui H; [exact H|].
  cbn [calls fold_left]. apply IH, call_closed, H.
Qed.

(** X22. Closing is final: once [on_close] has been called, whatever
    methods are called before and after it, the running flag is cleared
    and the window destroyed at the end; no method sets the flag again. *)
Theorem X22_closing_is_final (before after : list method) (ui : Ui) :
  let ui' := calls (before ++ m_on_close :: after) ui in
  running (core ui') = false /\ destroyed (core ui') = true.
Proof.
  cbv zeta. unfold calls. rewrite fold_left_app. cbn [fold_left].
  apply (calls_closed after). split; reflexivity.
Qed.
